(** * cWGAN: a shallow embedding of [src/learning/cWGAN.py]

    The development follows the Python module top to bottom: the model
    class [cWGAN] and its MNIST subclass, then the [Trainer] and its MNIST
    subclass.  TensorFlow, Keras and NumPy are collaborators of the module:
    their primitives are the fields of the [Backend] class below, random
    number generators are tapes of the samples they will return, and the
    disk is a log of the weight files written so far. *)

From stdpp Require Import base list strings gmap pretty.
From Stdlib Require Import ZArith Lia.

(** ** Exceptions and the state-and-exception monad *)

(** A Python exception is identified by the name of its class. *)
Inductive exn := PyExc (class_name : string).

Global Instance exn_eq_dec : EqDecision exn.
Proof. solve_decision. Defined.

Definition KeyError : exn := PyExc "KeyError".
Definition TypeError : exn := PyExc "TypeError".
Definition ValueError : exn := PyExc "ValueError".
Definition IndexError : exn := PyExc "IndexError".
Definition AttributeError : exn := PyExc "AttributeError".
Definition ZeroDivisionError : exn := PyExc "ZeroDivisionError".
Definition OSError : exn := PyExc "OSError".

(** Error classes named by the specification. *)
Definition ConfigurationError : exn := PyExc "ConfigurationError".
Definition InsufficientDataError : exn := PyExc "InsufficientDataError".
Definition PersistenceError : exn := PyExc "PersistenceError".

Inductive res (A : Type) : Type :=
  | Ok (a : A)
  | Raise (e : exn).
Arguments Ok {A} a.
Arguments Raise {A} e.

(** A computation reads and writes a state [S]; when it raises, the state
    reached so far is kept, as mutations of Python objects are. *)
Definition M (S A : Type) : Type := S -> res A * S.

Definition ret {S A} (a : A) : M S A := fun s => (Ok a, s).
Definition raise {S A} (e : exn) : M S A := fun s => (Raise e, s).
Definition bind {S A B} (m : M S A) (k : A -> M S B) : M S B :=
  fun s => match m s with
           | (Ok a, s') => k a s'
           | (Raise e, s') => (Raise e, s')
           end.
Definition get {S} : M S S := fun s => (Ok s, s).
Definition gets {S A} (f : S -> A) : M S A := fun s => (Ok (f s), s).
Definition modify {S} (f : S -> S) : M S unit := fun s => (Ok tt, f s).

Notation "x <- c1 ;; c2" := (bind c1 (fun x => c2))
  (at level 100, c1 at next level, right associativity).
Notation "c1 ;; c2" := (bind c1 (fun _ => c2))
  (at level 100, right associativity).

(** [for x in xs: body(x)] *)
Fixpoint for_ {S A} (xs : list A) (body : A -> M S unit) : M S unit :=
  match xs with
  | [] => ret tt
  | x :: xs' => body x ;; for_ xs' body
  end.

(** [range(n)] for a Python int [n]: empty when [n <= 0]. *)
Definition range (n : Z) : list Z := seqZ 0 n.

(** ** The numerical backend *)

Inductive architecture :=
  | DenseGenerator (noise_dims : nat)
  | DenseCritic
  | ConvGenerator (noise_dims : nat)
  | ConvCritic.

Inductive optimizer_class := RMSprop | Adam.

(** Scalars are the tensors' float32 elements, kept abstract together with
    their arithmetic; [weights] is the list of trainable variables of a
    [keras.Model], [grads] what [tape.gradient] returns for them, [slots]
    the slot variables of an optimizer. *)
Class Backend := {
  scalar : Type;
  s0 : scalar;
  s1 : scalar;
  sadd : scalar -> scalar -> scalar;
  ssub : scalar -> scalar -> scalar;
  smul : scalar -> scalar -> scalar;
  sdiv : scalar -> scalar -> scalar;
  sneg : scalar -> scalar;
  ssqrt : scalar -> scalar;
  s_of_nat : nat -> scalar;
  weights : Type;
  grads : Type;
  slots : Type;
  (** initial variables of a freshly built network *)
  keras_init : architecture -> weights;
  (** [model(inputs, training=flag)] *)
  keras_call : architecture -> weights -> list (list (list scalar)) -> bool ->
               list (list scalar);
  (** [tape.gradient(loss, model.trainable_variables)] *)
  tape_gradient : (weights -> scalar) -> weights -> grads;
  (** [tape.gradient(pred, y)] for a watched input tensor [y] *)
  tape_gradient_input : (list (list scalar) -> list (list scalar)) ->
                        list (list scalar) -> list (list scalar);
  (** slot variables of an optimizer that has not stepped yet *)
  fresh_slots : slots;
  (** one update of the optimizer's rule *)
  optimizer_update : optimizer_class -> scalar -> nat -> slots -> grads ->
                     weights -> slots * weights;
  (** [data_utils.concatenate_images_labels(images, labels)] *)
  concatenate_images_labels : list (list scalar) -> list (list scalar) ->
                              list (list scalar)
}.

Section Model.
Context {B : Backend}.

(** A rank-2 tensor is the list of its rows; the leading axis is the batch. *)
Abbreviation vec := (list scalar).
Abbreviation batch := (list (list scalar)).

(** *** Tensor operations *)

(** Broadcasting of a binary operation along the last axis: an axis of
    length one is stretched to the other operand's length. *)
Definition broadcast_row (op : scalar -> scalar -> scalar) (r1 r2 : vec) : vec :=
  match r1, r2 with
  | [a], _ => map (op a) r2
  | _, [b] => map (fun a => op a b) r1
  | _, _ => zip_with op r1 r2
  end.

(** Elementwise operation of two rank-2 tensors with the same leading
    axis.  TensorFlow raises for operands whose shapes do not broadcast;
    what is proved of the interpolation is proved for operands of one
    shape. *)
Definition tensor_op (op : scalar -> scalar -> scalar) (a b : batch) : batch :=
  zip_with (broadcast_row op) a b.

Definition reduce_sum (v : vec) : scalar := foldr sadd s0 v.

Definition mean_vec (v : vec) : scalar := sdiv (reduce_sum v) (s_of_nat (length v)).

(** [tf.math.reduce_mean] over all the elements of a tensor *)
Definition reduce_mean (t : batch) : scalar := mean_vec (concat t).

Definition square (a : scalar) : scalar := smul a a.

(** *** Objects *)

Record keras_model := {
  arch : architecture;
  trainable_variables : weights
}.

Record optimizer := {
  opt_class : optimizer_class;
  lr : scalar;
  iterations : nat;
  opt_slots : slots
}.

(** [optimizer.apply_gradients(zip(grads, variables))] *)
Definition apply_gradients (o : optimizer) (g : grads) (m : keras_model)
  : optimizer * keras_model :=
  let '(sl, w) := optimizer_update (opt_class o) (lr o) (iterations o)
                    (opt_slots o) g (trainable_variables m) in
  ({| opt_class := opt_class o; lr := lr o;
      iterations := S (iterations o); opt_slots := sl |},
   {| arch := arch m; trainable_variables := w |}).

Inductive model_class := cls_cWGAN | cls_cWGAN_mnist.

(** An instance of [cWGAN] or of its subclass.  The two optimizer
    attributes exist only when [__init__] has assigned them. *)
Record cWGAN := {
  model_cls : model_class;
  clip_value : scalar;
  critic_optimizer : option optimizer;
  generator_optimizer : option optimizer;
  gp_weight : scalar;
  noise_dims : nat;
  generator : keras_model;
  critic : keras_model
}.

(** *** The world outside the objects *)

Inductive distribution :=
  | Uniform (lo hi : scalar)
  | Normal (mean stddev : scalar).

Inductive out_line :=
  | SavingLine (filename : string)
  | IterationLine (iteration : Z) (wass_estimate : scalar)
  | EpochLine (epoch : Z).

(** [np_tape] and [tf_tape] list the raw samples NumPy's and TensorFlow's
    generators will return next ([tf_tape] per requested distribution);
    [disk] logs the weight files written, oldest first; [disk_faults]
    gives the fate of the coming writes ([Some e]: the write raises [e];
    past its end every write succeeds); [stdout] the lines printed. *)
Record world := {
  np_tape : nat -> nat;
  np_pos : nat;
  tf_tape : distribution -> nat -> scalar;
  tf_pos : nat;
  disk : list (string * weights);
  disk_faults : list (option exn);
  stdout : list out_line
}.

Definition set_np_pos (p : nat) (w : world) : world :=
  {| np_tape := np_tape w; np_pos := p; tf_tape := tf_tape w; tf_pos := tf_pos w;
     disk := disk w; disk_faults := disk_faults w; stdout := stdout w |}.

Definition set_tf_pos (p : nat) (w : world) : world :=
  {| np_tape := np_tape w; np_pos := np_pos w; tf_tape := tf_tape w; tf_pos := p;
     disk := disk w; disk_faults := disk_faults w; stdout := stdout w |}.

Definition set_disk (d : list (string * weights)) (f : list (option exn))
  (w : world) : world :=
  {| np_tape := np_tape w; np_pos := np_pos w; tf_tape := tf_tape w;
     tf_pos := tf_pos w; disk := d; disk_faults := f; stdout := stdout w |}.

Definition print (l : out_line) (w : world) : world :=
  {| np_tape := np_tape w; np_pos := np_pos w; tf_tape := tf_tape w;
     tf_pos := tf_pos w; disk := disk w; disk_faults := disk_faults w;
     stdout := stdout w ++ [l] |}.

(** *** Random tensors *)

Fixpoint draw_vec (tape : nat -> scalar) (pos n : nat) : vec :=
  match n with
  | O => []
  | S n' => tape pos :: draw_vec tape (S pos) n'
  end.

Fixpoint draw_rows (tape : nat -> scalar) (pos rows cols : nat) : batch :=
  match rows with
  | O => []
  | S r => draw_vec tape pos cols :: draw_rows tape (pos + cols) r cols
  end.

(** [tf.random.uniform((rows, cols), lo, hi)] and
    [tf.random.normal([rows, cols], mean, stddev)]: the next [rows * cols]
    samples of the requested distribution, used as drawn. *)
Definition tf_random (d : distribution) (rows cols : nat) : M world batch :=
  fun w => (Ok (draw_rows (tf_tape w d) (tf_pos w) rows cols),
            set_tf_pos (tf_pos w + rows * cols) w).

(** ** class cWGAN *)

(** The state a method of the model runs in: the instance and the world. *)
Abbreviation mstate := (cWGAN * world)%type.

Definition in_world {A} (m : M world A) : M mstate A :=
  fun s => let '(r, w) := m (snd s) in (r, (fst s, w)).

(** [self.<attr>] for an attribute that may never have been assigned *)
Definition getattr {S A} (a : option A) : M S A :=
  match a with
  | Some v => ret v
  | None => raise AttributeError
  end.

Definition set_critic (o : optimizer) (m : keras_model) (net : cWGAN) : cWGAN :=
  {| model_cls := model_cls net; clip_value := clip_value net;
     critic_optimizer := Some o; generator_optimizer := generator_optimizer net;
     gp_weight := gp_weight net; noise_dims := noise_dims net;
     generator := generator net; critic := m |}.

Definition set_generator (o : optimizer) (m : keras_model) (net : cWGAN) : cWGAN :=
  {| model_cls := model_cls net; clip_value := clip_value net;
     critic_optimizer := critic_optimizer net; generator_optimizer := Some o;
     gp_weight := gp_weight net; noise_dims := noise_dims net;
     generator := m; critic := critic net |}.

(** [build_generator] and [build_critic], as each class defines them *)
Definition build_generator (cls : model_class) (noise_dims : nat) : keras_model :=
  match cls with
  | cls_cWGAN =>
      {| arch := DenseGenerator noise_dims;
         trainable_variables := keras_init (DenseGenerator noise_dims) |}
  | cls_cWGAN_mnist =>
      {| arch := ConvGenerator noise_dims;
         trainable_variables := keras_init (ConvGenerator noise_dims) |}
  end.

Definition build_critic (cls : model_class) : keras_model :=
  match cls with
  | cls_cWGAN =>
      {| arch := DenseCritic; trainable_variables := keras_init DenseCritic |}
  | cls_cWGAN_mnist =>
      {| arch := ConvCritic; trainable_variables := keras_init ConvCritic |}
  end.

Definition new_optimizer (c : optimizer_class) (rate : scalar) : optimizer :=
  {| opt_class := c; lr := rate; iterations := 0; opt_slots := fresh_slots |}.

(** The body of [cWGAN.__init__], which [cWGAN_mnist] inherits.  The
    arguments have the types the docstring gives them. *)
Definition cWGAN_init (cls : model_class) (clip_value : scalar) (noise_dims : nat)
  (optimizer : string) (gen_lr critic_lr gp_weight : scalar) : res cWGAN :=
  let '(critic_opt, generator_opt) :=
    if String.eqb optimizer "RMSprop" then
      (Some (new_optimizer RMSprop critic_lr), Some (new_optimizer RMSprop gen_lr))
    else if String.eqb optimizer "Adam" then
      (Some (new_optimizer Adam critic_lr), Some (new_optimizer Adam gen_lr))
    else (None, None) in
  Ok {| model_cls := cls; clip_value := clip_value;
        critic_optimizer := critic_opt; generator_optimizer := generator_opt;
        gp_weight := gp_weight; noise_dims := noise_dims;
        generator := build_generator cls noise_dims;
        critic := build_critic cls |}.

(** [model(inputs, training=flag)] on a model object *)
Definition call (m : keras_model) (inputs : list batch) (training : bool) : batch :=
  keras_call (arch m) (trainable_variables m) inputs training.

Definition with_variables (m : keras_model) (w : weights) : keras_model :=
  {| arch := arch m; trainable_variables := w |}.

Definition critic_loss (real_output fake_output : batch) : scalar :=
  sneg (ssub (reduce_mean real_output) (reduce_mean fake_output)).

Definition generator_loss (fake_output : batch) : scalar :=
  sneg (reduce_mean fake_output).

(** [y_new = t * diff + y_real] for a drawn [t] of shape [[batch_size, 1]] *)
Definition interpolate (t y_real y_gen : batch) : batch :=
  let diff := tensor_op ssub y_gen y_real in
  tensor_op sadd (tensor_op smul t diff) y_real.

Definition interpolate_data (y_real y_gen : batch) : M mstate batch :=
  let batch_size := length y_real in
  t <- in_world (tf_random (Normal s0 s1) batch_size 1) ;;
  ret (interpolate t y_real y_gen).

(** [norm] and [gp] of [gradient_penalty], from the gradients *)
Definition penalty_of_gradients (g : batch) : scalar :=
  let norm := map (fun row => ssqrt (reduce_sum (map square row))) g in
  mean_vec (map (fun n => square (ssub n s1)) norm).

(** The penalty at an interpolated batch, for a critic [c]. *)
Definition penalty_at (c : keras_model) (x y_interpolated : batch) : scalar :=
  penalty_of_gradients
    (tape_gradient_input (fun y => call c [x; y] true) y_interpolated).

Definition gradient_penalty (x y_real y_gen : batch) : M mstate scalar :=
  y_interpolated <- interpolate_data y_real y_gen ;;
  net <- gets fst ;;
  ret (penalty_at (critic net) x y_interpolated).

(** The loss recorded on the tape of [cWGAN.train_critic], as a function
    of the critic's variables. *)
Definition critic_objective (net : cWGAN) (x y predicted_y y_interpolated : batch)
  (w : weights) : scalar :=
  let c := with_variables (critic net) w in
  let real_output := call c [x; y] true in
  let fake_output := call c [x; predicted_y] true in
  sadd (critic_loss real_output fake_output)
       (smul (gp_weight net) (penalty_at c x y_interpolated)).

Definition cWGAN_train_critic (x y : batch) : M mstate scalar :=
  net <- gets fst ;;
  noise <- in_world (tf_random (Uniform s0 s1) (length x) (noise_dims net)) ;;
  let predicted_y := call (generator net) [x; noise] false in
  y_interpolated <- interpolate_data y predicted_y ;;
  let objective := critic_objective net x y predicted_y y_interpolated in
  let critic_loss_val := objective (trainable_variables (critic net)) in
  let critic_grads := tape_gradient objective (trainable_variables (critic net)) in
  o <- getattr (critic_optimizer net) ;;
  let '(o', c') := apply_gradients o critic_grads (critic net) in
  modify (fun s => (set_critic o' c' (fst s), snd s)) ;;
  ret critic_loss_val.

(** The loss recorded on the tape of [train_generator], as a function of
    the generator's variables. *)
Definition generator_objective (net : cWGAN) (x noise : batch) (w : weights) : scalar :=
  let predicted_y := call (with_variables (generator net) w) [x; noise] true in
  let fake_output := call (critic net) [x; predicted_y] false in
  generator_loss fake_output.

Definition cWGAN_train_generator (x : batch) : M mstate scalar :=
  net <- gets fst ;;
  noise <- in_world (tf_random (Uniform s0 s1) (length x) (noise_dims net)) ;;
  let objective := generator_objective net x noise in
  let generator_loss_val := objective (trainable_variables (generator net)) in
  let generator_grads := tape_gradient objective (trainable_variables (generator net)) in
  o <- getattr (generator_optimizer net) ;;
  let '(o', g') := apply_gradients o generator_grads (generator net) in
  modify (fun s => (set_generator o' g' (fst s), snd s)) ;;
  ret generator_loss_val.

Definition make_generator_predictions (x : batch) : M mstate batch :=
  net <- gets fst ;;
  noise <- in_world (tf_random (Uniform s0 s1) (length x) (noise_dims net)) ;;
  ret (call (generator net) [x; noise] false).

(** ** class cWGAN_mnist(cWGAN) *)

Definition mnist_critic_objective (net : cWGAN) (concat_real concat_fake : batch)
  (w : weights) : scalar :=
  let c := with_variables (critic net) w in
  let real_output := call c [concat_real] true in
  let fake_output := call c [concat_fake] true in
  critic_loss real_output fake_output.

Definition cWGAN_mnist_train_critic (labels images : batch) : M mstate scalar :=
  net <- gets fst ;;
  noise <- in_world (tf_random (Uniform s0 s1) (length labels) (noise_dims net)) ;;
  let concat_real := concatenate_images_labels images labels in
  let generated_images := call (generator net) [labels; noise] false in
  let concat_fake := concatenate_images_labels generated_images labels in
  let objective := mnist_critic_objective net concat_real concat_fake in
  let critic_loss_val := objective (trainable_variables (critic net)) in
  let critic_grads := tape_gradient objective (trainable_variables (critic net)) in
  o <- getattr (critic_optimizer net) ;;
  let '(o', c') := apply_gradients o critic_grads (critic net) in
  modify (fun s => (set_critic o' c' (fst s), snd s)) ;;
  ret critic_loss_val.

Definition mnist_generator_objective (net : cWGAN) (labels noise : batch)
  (w : weights) : scalar :=
  let generated_images := call (with_variables (generator net) w) [labels; noise] true in
  let concat_fake := concatenate_images_labels generated_images labels in
  let fake_output := call (critic net) [concat_fake] false in
  generator_loss fake_output.

Definition cWGAN_mnist_train_generator (labels : batch) : M mstate scalar :=
  net <- gets fst ;;
  noise <- in_world (tf_random (Uniform s0 s1) (length labels) (noise_dims net)) ;;
  let objective := mnist_generator_objective net labels noise in
  let generator_loss_val := objective (trainable_variables (generator net)) in
  let generator_grads := tape_gradient objective (trainable_variables (generator net)) in
  o <- getattr (generator_optimizer net) ;;
  let '(o', g') := apply_gradients o generator_grads (generator net) in
  modify (fun s => (set_generator o' g' (fst s), snd s)) ;;
  ret generator_loss_val.

(** Method lookup through the instance's class. *)
Definition train_critic (x y : batch) : M mstate scalar :=
  net <- gets fst ;;
  match model_cls net with
  | cls_cWGAN => cWGAN_train_critic x y
  | cls_cWGAN_mnist => cWGAN_mnist_train_critic x y
  end.

Definition train_generator (x : batch) : M mstate scalar :=
  net <- gets fst ;;
  match model_cls net with
  | cls_cWGAN => cWGAN_train_generator x
  | cls_cWGAN_mnist => cWGAN_mnist_train_generator x
  end.

(** ** Calls with positional arguments *)

(** The values a parameter dictionary holds and a call passes. *)
Inductive value :=
  | VInt (n : Z)
  | VFloat (a : scalar)
  | VStr (s : string).

(** A call [cls(args)] for [cls] one of [cWGAN], [cWGAN_mnist]: Python binds the
    positional arguments to the six parameters of the one [__init__] both
    classes share, and raises [TypeError] when their number differs.  A
    bound value that is not of the documented type is refused here as
    well. *)
Definition cWGAN_new (cls : model_class) (args : list value) : res cWGAN :=
  match args with
  | [clip_value; noise_dims; optimizer; gen_lr; critic_lr; gp_weight] =>
      match clip_value, noise_dims, optimizer, gen_lr, critic_lr, gp_weight with
      | VFloat cv, VInt nd, VStr o, VFloat g, VFloat c, VFloat gp =>
          cWGAN_init cls cv (Z.to_nat nd) o g c gp
      | _, _, _, _, _, _ => Raise TypeError
      end
  | _ => Raise TypeError
  end.

(** ** class Trainer *)

Inductive trainer_class := cls_Trainer | cls_MNISTTrainer.

Record Trainer := {
  trainer_cls : trainer_class;
  save_dir : string;
  num_critic_iters : Z;
  batch_size : Z;
  model : cWGAN;
  data : batch * batch;
  epochs : Z;
  num_training_examples : nat;
  weight_saving_interval : Z;
  critic_losses : list scalar;
  generator_losses : list scalar;
  wass_estimates : list scalar
}.

Definition set_model (net : cWGAN) (t : Trainer) : Trainer :=
  {| trainer_cls := trainer_cls t; save_dir := save_dir t;
     num_critic_iters := num_critic_iters t; batch_size := batch_size t;
     model := net; data := data t; epochs := epochs t;
     num_training_examples := num_training_examples t;
     weight_saving_interval := weight_saving_interval t;
     critic_losses := critic_losses t; generator_losses := generator_losses t;
     wass_estimates := wass_estimates t |}.

Definition append_critic_loss (a : scalar) (t : Trainer) : Trainer :=
  {| trainer_cls := trainer_cls t; save_dir := save_dir t;
     num_critic_iters := num_critic_iters t; batch_size := batch_size t;
     model := model t; data := data t; epochs := epochs t;
     num_training_examples := num_training_examples t;
     weight_saving_interval := weight_saving_interval t;
     critic_losses := critic_losses t ++ [a];
     generator_losses := generator_losses t;
     wass_estimates := wass_estimates t |}.

Definition append_generator_loss (a : scalar) (t : Trainer) : Trainer :=
  {| trainer_cls := trainer_cls t; save_dir := save_dir t;
     num_critic_iters := num_critic_iters t; batch_size := batch_size t;
     model := model t; data := data t; epochs := epochs t;
     num_training_examples := num_training_examples t;
     weight_saving_interval := weight_saving_interval t;
     critic_losses := critic_losses t;
     generator_losses := generator_losses t ++ [a];
     wass_estimates := wass_estimates t |}.

Definition append_wass_estimate (a : scalar) (t : Trainer) : Trainer :=
  {| trainer_cls := trainer_cls t; save_dir := save_dir t;
     num_critic_iters := num_critic_iters t; batch_size := batch_size t;
     model := model t; data := data t; epochs := epochs t;
     num_training_examples := num_training_examples t;
     weight_saving_interval := weight_saving_interval t;
     critic_losses := critic_losses t;
     generator_losses := generator_losses t;
     wass_estimates := wass_estimates t ++ [a] |}.

(** The state a method of the trainer runs in. *)
Record state := {
  self : Trainer;
  env : world
}.

Definition on_self (f : Trainer -> Trainer) : M state unit :=
  modify (fun s => {| self := f (self s); env := env s |}).

Definition on_env {A} (m : M world A) : M state A :=
  fun s => let '(r, w) := m (env s) in (r, {| self := self s; env := w |}).

(** [self.model.<method>(...)] *)
Definition on_model {A} (m : M mstate A) : M state A :=
  fun s => let '(r, (net, w)) := m (model (self s), env s) in
           (r, {| self := set_model net (self s); env := w |}).

Definition lift {S A} (r : res A) : M S A := fun s => (r, s).

(** *** Construction *)

(** [params_dict[key]] *)
Definition dict_get (params_dict : gmap string value) (key : string) : res value :=
  match params_dict !! key with
  | Some v => Ok v
  | None => Raise KeyError
  end.

Definition as_int (v : value) : res Z :=
  match v with VInt n => Ok n | _ => Raise TypeError end.

Definition as_str (v : value) : res string :=
  match v with VStr s => Ok s | _ => Raise TypeError end.

Section Construction.
(** [file_utils] and [data_utils] are modules of the repository outside
    this file; their functions are taken as they are called. *)
Variable make_save_directory : string -> M world string.
Variable load_jet_data : string -> M world (batch * batch).
Variable load_mnist_data : M world (batch * batch).

(** The attributes are stored at the types the training loop uses them at. *)
Definition new_trainer (cls : trainer_class) (save_dir : string)
  (num_critic_iters batch_size : value) (net : cWGAN) (data : batch * batch)
  (epochs weight_saving_interval : value) : res Trainer :=
  match as_int num_critic_iters, as_int batch_size, as_int epochs,
        as_int weight_saving_interval with
  | Ok nci, Ok bs, Ok ep, Ok wsi =>
      Ok {| trainer_cls := cls; save_dir := save_dir; num_critic_iters := nci;
            batch_size := bs; model := net; data := data; epochs := ep;
            num_training_examples := length (fst data);
            weight_saving_interval := wsi;
            critic_losses := []; generator_losses := []; wass_estimates := [] |}
  | _, _, _, _ => Raise TypeError
  end.

Definition Trainer_init (params_dict : gmap string value) : M world Trainer :=
  save_dir <- make_save_directory "cWGAN" ;;
  num_critic_iters <- lift (dict_get params_dict "num_critic_iters") ;;
  batch_size <- lift (dict_get params_dict "batch_size") ;;
  gen_lr <- lift (dict_get params_dict "gen_lr") ;;
  critic_lr <- lift (dict_get params_dict "critic_lr") ;;
  clip_value <- lift (dict_get params_dict "clip_value") ;;
  optimizer <- lift (dict_get params_dict "optimizer") ;;
  noise_dims <- lift (dict_get params_dict "noise_dims") ;;
  gp_weight <- lift (dict_get params_dict "gp_weight") ;;
  net <- lift (cWGAN_new cls_cWGAN
                 [clip_value; noise_dims; optimizer; gen_lr; critic_lr; gp_weight]) ;;
  data_path <- lift (dict_get params_dict "data_path") ;;
  data_path <- lift (as_str data_path) ;;
  data <- load_jet_data data_path ;;
  epochs <- lift (dict_get params_dict "epochs") ;;
  weight_saving_interval <- lift (dict_get params_dict "weight_saving_interval") ;;
  lift (new_trainer cls_Trainer save_dir num_critic_iters batch_size net data
          epochs weight_saving_interval).

Definition MNISTTrainer_init (params_dict : gmap string value) : M world Trainer :=
  save_dir <- make_save_directory "cWGAN" ;;
  num_critic_iters <- lift (dict_get params_dict "num_critic_iters") ;;
  batch_size <- lift (dict_get params_dict "batch_size") ;;
  clip_value <- lift (dict_get params_dict "clip_value") ;;
  noise_dims <- lift (dict_get params_dict "noise_dims") ;;
  gen_lr <- lift (dict_get params_dict "gen_lr") ;;
  critic_lr <- lift (dict_get params_dict "critic_lr") ;;
  gp_weight <- lift (dict_get params_dict "gp_weight") ;;
  net <- lift (cWGAN_new cls_cWGAN_mnist
                 [clip_value; noise_dims; gen_lr; critic_lr; gp_weight]) ;;
  data <- load_mnist_data ;;
  epochs <- lift (dict_get params_dict "epochs") ;;
  weight_saving_interval <- lift (dict_get params_dict "weight_saving_interval") ;;
  lift (new_trainer cls_MNISTTrainer save_dir num_critic_iters batch_size net data
          epochs weight_saving_interval).

End Construction.

(** *** Sampling *)

(** Sampling without replacement from [pool]: each raw sample of the tape
    selects one of the entries still in the pool. *)
Fixpoint np_pick (tape : nat -> nat) (pos : nat) (pool : list nat) (k : nat)
  : list nat :=
  match k with
  | O => []
  | S k' =>
      match pool with
      | [] => []
      | p :: pool' =>
          let i := tape pos mod length pool in
          nth i pool p :: np_pick tape (S pos) (delete i pool) k'
      end
  end.

(** [np.random.choice(np.arange(n), size, replace=False)]: NumPy raises
    [ValueError] for a negative size and for a sample larger than the
    population, before it draws anything. *)
Definition np_random_choice (n : nat) (size : Z) : M world (list nat) :=
  fun w =>
    if (size <? 0)%Z then (Raise ValueError, w)
    else if (Z.of_nat n <? size)%Z then (Raise ValueError, w)
    else (Ok (np_pick (np_tape w) (np_pos w) (seq 0 n) (Z.to_nat size)),
          set_np_pos (np_pos w + Z.to_nat size) w).

(** [a[indices]] for an array of indices *)
Definition take_rows (a : batch) (indices : list nat) : res batch :=
  match mapM (fun i => a !! i) indices with
  | Some rows => Ok rows
  | None => Raise IndexError
  end.

Definition sample_batch_of_data : M state (batch * batch) :=
  t <- gets self ;;
  indices <- on_env (np_random_choice (num_training_examples t) (batch_size t)) ;;
  x <- lift (take_rows (fst (data t)) indices) ;;
  y <- lift (take_rows (snd (data t)) indices) ;;
  ret (x, y).

(** *** Steps *)

Definition take_critic_step : M state unit :=
  xy <- sample_batch_of_data ;;
  critic_loss <- on_model (train_critic (fst xy) (snd xy)) ;;
  on_self (append_critic_loss critic_loss).

Definition Trainer_take_generator_step : M state unit :=
  xy <- sample_batch_of_data ;;
  let x := fst xy in
  let y := snd xy in
  generator_loss <- on_model (train_generator x) ;;
  on_self (append_generator_loss generator_loss) ;;
  predicted_y <- on_model (make_generator_predictions x) ;;
  t <- gets self ;;
  let real_output := call (critic (model t)) [x; y] false in
  let fake_output := call (critic (model t)) [x; predicted_y] false in
  let wass_estimate := sneg (critic_loss real_output fake_output) in
  on_self (append_wass_estimate wass_estimate).

Definition MNISTTrainer_take_generator_step : M state unit :=
  xy <- sample_batch_of_data ;;
  let labels := fst xy in
  let images := snd xy in
  let concat_real := concatenate_images_labels images labels in
  generator_loss <- on_model (train_generator labels) ;;
  predicted_images <- on_model (make_generator_predictions labels) ;;
  let concat_fake := concatenate_images_labels predicted_images labels in
  on_self (append_generator_loss generator_loss) ;;
  t <- gets self ;;
  let real_output := call (critic (model t)) [concat_real] false in
  let fake_output := call (critic (model t)) [concat_fake] false in
  let wass_estimate := sneg (critic_loss real_output fake_output) in
  on_self (append_wass_estimate wass_estimate).

Definition take_generator_step : M state unit :=
  t <- gets self ;;
  match trainer_cls t with
  | cls_Trainer => Trainer_take_generator_step
  | cls_MNISTTrainer => MNISTTrainer_take_generator_step
  end.

(** *** Checkpoints *)

Fixpoint ends_with_slash (s : string) : bool :=
  match s with
  | EmptyString => false
  | String c EmptyString => Ascii.eqb c (Ascii.ascii_of_nat 47)
  | String _ s' => ends_with_slash s'
  end.

(** [os.path.join(a, b)] on a POSIX system *)
Definition os_path_join (a b : string) : string :=
  if String.prefix "/" b then b
  else if String.eqb a "" then b
  else if ends_with_slash a then a +:+ b
  else a +:+ "/" +:+ b.

(** [str(n)] for an int *)
Definition str (n : Z) : string := pretty n.

(** [model.save_weights(filename)]: the write either raises what the
    disk's next fault says or adds the file. *)
Definition keras_save_weights (m : keras_model) (filename : string) : M world unit :=
  fun w =>
    match disk_faults w with
    | Some e :: rest => (Raise e, set_disk (disk w) rest w)
    | None :: rest =>
        (Ok tt, set_disk (disk w ++ [(filename, trainable_variables m)]) rest w)
    | [] =>
        (Ok tt, set_disk (disk w ++ [(filename, trainable_variables m)]) [] w)
    end.

Definition save_weights (iteration : Z) : M state unit :=
  t <- gets self ;;
  let checkpoint_dir := save_dir t +:+ "/training_checkpoints" in
  let gen_filename := os_path_join checkpoint_dir ("gen_" +:+ str iteration) in
  on_env (modify (print (SavingLine gen_filename))) ;;
  on_env (keras_save_weights (generator (model t)) gen_filename).

(** *** The training loop *)

(** [a // b] and [a % b] on ints *)
Definition floordiv {S} (a b : Z) : M S Z :=
  if (b =? 0)%Z then raise ZeroDivisionError else ret (a `div` b)%Z.

Definition pymod {S} (a b : Z) : M S Z :=
  if (b =? 0)%Z then raise ZeroDivisionError else ret (a `mod` b)%Z.

(** [xs[-1]] *)
Definition last_item {S} (xs : list scalar) : M S scalar :=
  match last xs with
  | Some a => ret a
  | None => raise IndexError
  end.

(** The critic steps and the generator step of one iteration. *)
Definition take_steps : M state unit :=
  t <- gets self ;;
  for_ (range (num_critic_iters t)) (fun critic_iter => take_critic_step) ;;
  take_generator_step.

(** The body of the loop over [batch_number]. *)
Definition train_iteration (batches_per_epoch epoch batch_number : Z) : M state unit :=
  take_steps ;;
  let iteration := (epoch * batches_per_epoch + batch_number)%Z in
  t <- gets self ;;
  r <- pymod iteration (weight_saving_interval t) ;;
  (if (r =? 0)%Z then save_weights iteration else ret tt) ;;
  t <- gets self ;;
  w <- last_item (wass_estimates t) ;;
  on_env (modify (print (IterationLine iteration w))).

(** The body of the loop over [epoch]; the clock readings and the
    duration printed with the epoch are left out. *)
Definition train_epoch (batches_per_epoch epoch : Z) : M state unit :=
  for_ (range batches_per_epoch) (train_iteration batches_per_epoch epoch) ;;
  on_env (modify (print (EpochLine epoch))).

Definition train : M state unit :=
  t <- gets self ;;
  batches_per_epoch <- floordiv (Z.of_nat (num_training_examples t)) (batch_size t) ;;
  for_ (range (epochs t)) (train_epoch batches_per_epoch).

End Model.

(** ** What the properties observe *)

Section Observations.
Context {B : Backend}.

(** The uniform noise a step draws for a batch [x]. *)
Definition noise_of (net : cWGAN) (w : world) (x : list (list scalar)) : list (list scalar) :=
  draw_rows (tf_tape w (Uniform s0 s1)) (tf_pos w) (length x) (noise_dims net).

Definition after_noise (net : cWGAN) (w : world) (x : list (list scalar)) : world :=
  set_tf_pos (tf_pos w + length x * noise_dims net) w.

(** The estimate [take_generator_step] records, for the batch [(x, y)] it
    sampled and the model [net] its generator update left: both networks
    are called with [training=False], the generator on fresh noise. *)
Definition recorded_estimate (cls : trainer_class) (net : cWGAN) (w : world)
  (x y : list (list scalar)) : scalar :=
  let predicted := call (generator net) [x; noise_of net w x] false in
  match cls with
  | cls_Trainer =>
      sneg (critic_loss (call (critic net) [x; y] false)
                        (call (critic net) [x; predicted] false))
  | cls_MNISTTrainer =>
      sneg (critic_loss (call (critic net) [concatenate_images_labels y x] false)
                        (call (critic net) [concatenate_images_labels predicted x] false))
  end.


(** The interpolation of [a] with itself by the sample [t] gives [a] back.
    In float32 this is so for finite [a] and [t] (up to the sign of a
    zero), and not for an infinite [a], where [a - a] is NaN. *)
Definition exact_at (t a : scalar) : Prop :=
  sadd (smul t (ssub a a)) a = a.

(** The attributes no method assigns after construction. *)
Definition settings (t : Trainer) :=
  (trainer_cls t, save_dir t, num_critic_iters t, batch_size t, data t, epochs t,
   num_training_examples t, weight_saving_interval t,
   (model_cls (model t), clip_value (model t), gp_weight (model t),
    noise_dims (model t), arch (generator (model t)), arch (critic (model t)))).

(** The number of updates an optimizer has applied ([optimizer.iterations]). *)
Definition steps_of (o : option optimizer) : option nat := iterations <$> o.

(** Sampling can succeed: the batch fits the data set, and both arrays
    hold the examples counted at construction. *)
Definition can_sample (t : Trainer) : Prop :=
  (0 <= batch_size t <= Z.of_nat (num_training_examples t))%Z
  /\ num_training_examples t <= length (fst (data t))
  /\ num_training_examples t <= length (snd (data t)).

Definition has_optimizers (t : Trainer) : Prop :=
  is_Some (critic_optimizer (model t)) /\ is_Some (generator_optimizer (model t)).

(** [advanced kc kg s s']: from [s] to [s'] the critic's optimizer applied
    [kc] updates and the generator's [kg], each on a batch drawn for it,
    each recorded in the histories; nothing was written or printed. *)
Record advanced (kc kg : nat) (s s' : state) : Prop := {
  adv_settings : settings (self s') = settings (self s);
  adv_critic_losses :
    length (critic_losses (self s')) = length (critic_losses (self s)) + kc;
  adv_generator_losses :
    length (generator_losses (self s')) = length (generator_losses (self s)) + kg;
  adv_wass_estimates :
    length (wass_estimates (self s')) = length (wass_estimates (self s)) + kg;
  adv_critic_steps :
    steps_of (critic_optimizer (model (self s')))
    = (fun n => n + kc) <$> steps_of (critic_optimizer (model (self s)));
  adv_generator_steps :
    steps_of (generator_optimizer (model (self s')))
    = (fun n => n + kg) <$> steps_of (generator_optimizer (model (self s)));
  adv_np_pos :
    np_pos (env s') = np_pos (env s) + (kc + kg) * Z.to_nat (batch_size (self s));
  adv_np_tape : np_tape (env s') = np_tape (env s);
  adv_disk : disk (env s') = disk (env s);
  adv_disk_faults : disk_faults (env s') = disk_faults (env s);
  adv_stdout : stdout (env s') = stdout (env s)
}.

(** The file [save_weights] writes for an iteration. *)
Definition checkpoint_name (t : Trainer) (iteration : Z) : string :=
  os_path_join (save_dir t +:+ "/training_checkpoints") ("gen_" +:+ str iteration).

(** The coming write to the disk does not fail. *)
Definition next_write_succeeds (w : world) : Prop :=
  match disk_faults w with
  | Some _ :: _ => False
  | _ => True
  end.

End Observations.

(** ** What the further properties observe *)

Section RunObservations.
Context {B : Backend}.

(** The iteration numbers of the [IterationLine]s printed, in order. *)
Definition printed_iterations (out : list out_line) : list Z :=
  omap (fun l => match l with
                 | IterationLine i _ => Some i
                 | _ => None
                 end) out.

(** The names of the weight files written, oldest first. *)
Definition saved_files (w : world) : list string := map fst (disk w).

(** From [w] to [w'] nothing was written or printed, and the tapes are
    the same. *)
Definition same_outside (w w' : world) : Prop :=
  disk w' = disk w /\ disk_faults w' = disk_faults w /\ stdout w' = stdout w
  /\ np_tape w' = np_tape w /\ tf_tape w' = tf_tape w.

(** No coming write to the disk fails. *)
Definition disk_never_fails (w : world) : Prop :=
  Forall (fun f => f = None) (disk_faults w).

(** [trained its s s']: from [s] to [s'] the loop ran the iterations
    numbered [its], in that order, each with its critic steps, its
    generator step, its checkpoint when due and its printed line. *)
Record trained (its : list Z) (s s' : state) : Prop := {
  tr_settings : settings (self s') = settings (self s);
  tr_critic_losses :
    length (critic_losses (self s'))
    = length (critic_losses (self s))
      + length its * Z.to_nat (num_critic_iters (self s));
  tr_generator_losses :
    length (generator_losses (self s'))
    = length (generator_losses (self s)) + length its;
  tr_wass_estimates :
    length (wass_estimates (self s'))
    = length (wass_estimates (self s)) + length its;
  tr_critic_steps :
    steps_of (critic_optimizer (model (self s')))
    = (fun n => n + length its * Z.to_nat (num_critic_iters (self s)))
        <$> steps_of (critic_optimizer (model (self s)));
  tr_generator_steps :
    steps_of (generator_optimizer (model (self s')))
    = (fun n => n + length its) <$> steps_of (generator_optimizer (model (self s)));
  tr_np_pos :
    np_pos (env s')
    = np_pos (env s)
      + length its * ((Z.to_nat (num_critic_iters (self s)) + 1)
                      * Z.to_nat (batch_size (self s)));
  tr_saved_files :
    saved_files (env s')
    = saved_files (env s)
      ++ map (checkpoint_name (self s))
           (filter (fun i => (i `mod` weight_saving_interval (self s) = 0)%Z) its);
  tr_printed :
    printed_iterations (stdout (env s'))
    = printed_iterations (stdout (env s)) ++ its;
  tr_disk_never_fails : disk_never_fails (env s');
  tr_latest :
    forall i, last its = Some i ->
              (i `mod` weight_saving_interval (self s) = 0)%Z ->
              last (disk (env s'))
              = Some (checkpoint_name (self s) i,
                      trainable_variables (generator (model (self s'))));
  tr_idle :
    its = [] ->
    disk (env s') = disk (env s)
    /\ generator (model (self s')) = generator (model (self s))
}.

(** [extends s s']: [s'] has the settings and the data of [s]; the
    histories, the files written and the lines printed in [s] are still
    there, in place, with what came after them. *)
Record extends (s s' : state) : Prop := {
  ext_settings : settings (self s') = settings (self s);
  ext_critic_losses : critic_losses (self s) `prefix_of` critic_losses (self s');
  ext_generator_losses :
    generator_losses (self s) `prefix_of` generator_losses (self s');
  ext_wass_estimates : wass_estimates (self s) `prefix_of` wass_estimates (self s');
  ext_disk : disk (env s) `prefix_of` disk (env s');
  ext_stdout : stdout (env s) `prefix_of` stdout (env s')
}.

(** A computation that only ever extends the state it starts from,
    whether it returns or raises. *)
Definition extending {A} (m : M state A) : Prop :=
  forall s, extends s (snd (m s)).

End RunObservations.

(** ** The module's entry point *)

Section Entry.
Context {B : Backend}.

(** [model.summary()], which prints the table of the layers; Keras' own. *)
Variable summary : keras_model -> M world unit.

(** [main()]; [clip_value] stands for the literal [0.01]. *)
Definition main (clip_value : scalar) : M world unit :=
  net <- lift (cWGAN_new cls_cWGAN [VFloat clip_value; VInt 10]) ;;
  summary (generator net) ;;
  summary (critic net).

End Entry.

(** ** The layers of the four networks *)

Inductive activation := act_relu | act_tanh.

Inductive padding := pad_same | pad_valid.

(** The layers the module uses, with the arguments it passes. *)
Inductive keras_layer :=
  | Dense (units : N) (act : option activation)
  | Conv2D (filters : N) (kernel_size strides : N * N) (pad : padding)
  | Conv2DTranspose (filters : N) (kernel_size strides : N * N) (pad : padding)
                    (use_bias : bool) (act : option activation)
  | LeakyReLU
  | Reshape (target_shape : list N).

(** A symbolic tensor of the functional API; shapes leave the batch axis
    out, as [keras.Input(shape=...)] does. *)
Inductive keras_tensor :=
  | Input (shape : list N)
  | Apply (l : keras_layer) (t : keras_tensor)
  | Concatenate (a b : keras_tensor).

(** The output tensor of the model each [build_...] method returns. *)
Definition network (a : architecture) : keras_tensor :=
  match a with
  | DenseGenerator noise_dims =>
      let noise := Input [N.of_nat noise_dims] in
      let x_in := Input [4%N] in
      let concat := Concatenate x_in noise in
      let z := Apply (Dense 512 (Some act_relu)) concat in
      let z := Apply (Dense 512 (Some act_relu)) z in
      let z := Apply (Dense 512 (Some act_relu)) z in
      let z := Apply (Dense 512 (Some act_relu)) z in
      let z := Apply (Dense 512 (Some act_relu)) z in
      Apply (Dense 4 None) z
  | DenseCritic =>
      let x_in := Input [4%N] in
      let y_in := Input [4%N] in
      let concat := Concatenate x_in y_in in
      let z := Apply (Dense 512 (Some act_relu)) concat in
      let z := Apply (Dense 512 (Some act_relu)) z in
      let z := Apply (Dense 512 (Some act_relu)) z in
      let z := Apply (Dense 512 (Some act_relu)) z in
      let z := Apply (Dense 512 (Some act_relu)) z in
      Apply (Dense 1 None) z
  | ConvGenerator noise_dims =>
      let noise := Input [N.of_nat noise_dims] in
      let number_input := Input [10%N] in
      let input1 := Apply (Dense 10 (Some act_relu)) number_input in
      let input1 := Apply (Dense 32 (Some act_relu)) input1 in
      let input2 := Apply (Dense (N.of_nat noise_dims) (Some act_relu)) noise in
      let input2 := Apply (Dense (N.of_nat noise_dims) (Some act_relu)) input2 in
      let concat := Concatenate input1 input2 in
      let out := Apply (Dense (7 * 7 * 256) (Some act_relu)) concat in
      let out := Apply (Reshape [7; 7; 256]%N) out in
      let out := Apply (Conv2DTranspose 256 (5, 5)%N (1, 1)%N pad_same false None) out in
      let out := Apply LeakyReLU out in
      let out := Apply (Conv2DTranspose 128 (5, 5)%N (2, 2)%N pad_same false None) out in
      let out := Apply LeakyReLU out in
      Apply (Conv2DTranspose 1 (5, 5)%N (2, 2)%N pad_same false (Some act_tanh)) out
  | ConvCritic =>
      let image := Input [28; 28; 11]%N in
      let z := Apply (Conv2D 64 (5, 5)%N (2, 2)%N pad_same) image in
      let z := Apply LeakyReLU z in
      let z := Apply (Conv2D 128 (5, 5)%N (2, 2)%N pad_same) z in
      let z := Apply LeakyReLU z in
      let z := Apply (Conv2D 256 (5, 5)%N (2, 2)%N pad_same) z in
      let z := Apply LeakyReLU z in
      let z := Apply (Conv2D 512 (5, 5)%N (2, 2)%N pad_same) z in
      let z := Apply LeakyReLU z in
      Apply (Conv2D 1 (2, 2)%N (1, 1)%N pad_valid) z
  end.

(** Keras' length of a convolution's output along one axis; [None] where
    Keras refuses the layer (no stride, or a kernel larger than an unpadded
    input). *)
Definition conv_output_length (pad : padding) (n k s : N) : option N :=
  if (s =? 0)%N then None
  else match pad with
       | pad_same => Some ((n + s - 1) `div` s)%N
       | pad_valid => if (n <? k)%N then None else Some ((n - k) `div` s + 1)%N
       end.

(** Keras' length of a transposed convolution's output along one axis. *)
Definition deconv_output_length (pad : padding) (n k s : N) : option N :=
  if (s =? 0)%N then None
  else match pad with
       | pad_same => Some (n * s)%N
       | pad_valid => Some (n * s + N.max (k - s) 0)%N
       end.

Definition num_elements (shape : list N) : N := foldr N.mul 1%N shape.

(** The shape a layer gives to an input of shape [s]; [None] where Keras
    refuses the input. *)
Definition layer_output_shape (l : keras_layer) (s : list N) : option (list N) :=
  match l with
  | Dense units _ =>
      match s with
      | [] => None
      | _ => Some (removelast s ++ [units])
      end
  | Conv2D filters (kh, kw) (sh, sw) pad =>
      match s with
      | [h; w; _] =>
          match conv_output_length pad h kh sh, conv_output_length pad w kw sw with
          | Some oh, Some ow => Some [oh; ow; filters]
          | _, _ => None
          end
      | _ => None
      end
  | Conv2DTranspose filters (kh, kw) (sh, sw) pad _ _ =>
      match s with
      | [h; w; _] =>
          match deconv_output_length pad h kh sh, deconv_output_length pad w kw sw with
          | Some oh, Some ow => Some [oh; ow; filters]
          | _, _ => None
          end
      | _ => None
      end
  | LeakyReLU => Some s
  | Reshape target_shape =>
      if (num_elements s =? num_elements target_shape)%N then Some target_shape
      else None
  end.

(** The shape of a symbolic tensor; concatenation is along the last axis
    and needs the other axes equal. *)
Fixpoint output_shape (t : keras_tensor) : option (list N) :=
  match t with
  | Input shape => Some shape
  | Apply l t' =>
      match output_shape t' with
      | Some s => layer_output_shape l s
      | None => None
      end
  | Concatenate a b =>
      match output_shape a, output_shape b with
      | Some sa, Some sb =>
          match last sa, last sb with
          | Some da, Some db =>
              if decide (removelast sa = removelast sb)
              then Some (removelast sa ++ [(da + db)%N])
              else None
          | _, _ => None
          end
      | _, _ => None
      end
  end.

(** * A small backend over the integers

    Exact integer arithmetic, networks with one trainable variable [w]: the
    critic scores an example by [w] times the sum of its last input, the
    generator scales its condition by [w].  Gradients are exact finite
    differences, every optimizer moves each variable by minus its learning
    rate times its gradient. *)

Module Toy.

Definition zsum (v : list Z) : Z := foldr Z.add 0%Z v.

Definition toy_call (a : architecture) (w : list Z) (inputs : list (list (list Z)))
  (training : bool) : list (list Z) :=
  match a with
  | DenseCritic | ConvCritic =>
      map (fun row => [(hd 0%Z w * zsum row)%Z]) (default [] (last inputs))
  | DenseGenerator _ | ConvGenerator _ =>
      map (map (Z.mul (hd 0%Z w))) (default [] (head inputs))
  end.

Definition toy_gradient (loss : list Z -> Z) (w : list Z) : list Z :=
  [((loss [(hd 0%Z w + 1)%Z] - loss [(hd 0%Z w - 1)%Z]) `div` 2)%Z].

Definition bump (i j : nat) (y : list (list Z)) : list (list Z) :=
  alter (alter (Z.add 1) j) i y.

Definition toy_gradient_input (f : list (list Z) -> list (list Z))
  (y : list (list Z)) : list (list Z) :=
  imap (fun i row =>
          imap (fun j _ => (zsum (concat (f (bump i j y))) - zsum (concat (f y)))%Z)
               row) y.

Definition toy_update (c : optimizer_class) (rate : Z) (step : nat) (sl : unit)
  (g w : list Z) : unit * list Z :=
  (tt, zip_with (fun wi gi => (wi - rate * gi)%Z) w g).

#[export] Instance backend : Backend := {|
  scalar := Z;
  s0 := 0%Z;
  s1 := 1%Z;
  sadd := Z.add;
  ssub := Z.sub;
  smul := Z.mul;
  sdiv := Z.div;
  sneg := Z.opp;
  ssqrt := Z.sqrt;
  s_of_nat := Z.of_nat;
  weights := list Z;
  grads := list Z;
  slots := unit;
  keras_init := fun _ => [2%Z];
  keras_call := toy_call;
  tape_gradient := toy_gradient;
  tape_gradient_input := toy_gradient_input;
  fresh_slots := tt;
  optimizer_update := toy_update;
  concatenate_images_labels := zip_with app
|}.

(** Eight example pairs of 4-vectors. *)
Definition examples_x : list (list Z) :=
  map (fun i => [i; i + 1; i + 2; i + 3]%Z) (seqZ 0 8).
Definition examples_y : list (list Z) :=
  map (fun i => [2 * i; 1; 0; i]%Z) (seqZ 0 8).

Definition a_world (faults : list (option exn)) : world :=
  {| np_tape := fun i => 3 * i + 1;
     np_pos := 0;
     tf_tape := fun d i =>
       match d with
       | Uniform _ _ => Z.of_nat (i mod 2)
       | Normal _ _ => (Z.of_nat (i mod 5) - 2)%Z
       end;
     tf_pos := 0;
     disk := [];
     disk_faults := faults;
     stdout := [] |}.

Definition a_model (cls : model_class) (optimizer : option optimizer_class)
  (gp_weight : Z) : cWGAN :=
  {| model_cls := cls; clip_value := 1%Z;
     critic_optimizer := (fun c => new_optimizer c 1%Z) <$> optimizer;
     generator_optimizer := (fun c => new_optimizer c 1%Z) <$> optimizer;
     gp_weight := gp_weight; noise_dims := 10;
     generator := build_generator cls 10; critic := build_critic cls |}.

(** The scenario of the specification: 8 examples, batches of 4, one
    critic step per iteration, a checkpoint at every iteration. *)
Definition a_trainer (cls : trainer_class) (net : cWGAN) (batch_size : Z) : Trainer :=
  {| trainer_cls := cls; save_dir := "run"; num_critic_iters := 1;
     batch_size := batch_size; model := net; data := (examples_x, examples_y);
     epochs := 1; num_training_examples := 8; weight_saving_interval := 1;
     critic_losses := []; generator_losses := []; wass_estimates := [] |}.

Definition a_state (batch_size : Z) (faults : list (option exn)) : state :=
  {| self := a_trainer cls_Trainer (a_model cls_cWGAN (Some Adam) 10) batch_size;
     env := a_world faults |}.

Definition an_mnist_state : state :=
  {| self := a_trainer cls_MNISTTrainer (a_model cls_cWGAN_mnist (Some Adam) 10) 4;
     env := a_world [] |}.

(** The first four examples as one batch. *)
Definition x4 : list (list Z) := take 4 examples_x.
Definition y4 : list (list Z) := take 4 examples_y.

(** The batch the sampler draws first from [a_world]. *)
Definition x_drawn : list (list Z) :=
  [[1; 2; 3; 4]; [5; 6; 7; 8]; [2; 3; 4; 5]; [0; 1; 2; 3]]%Z.
Definition y_drawn : list (list Z) :=
  [[2; 1; 0; 1]; [10; 1; 0; 5]; [4; 1; 0; 2]; [0; 1; 0; 0]]%Z.

Definition adam : optimizer := new_optimizer Adam 1%Z.


(** A trainer whose model was built with an unrecognised optimizer name. *)
Definition a_state_without_optimizers : state :=
  {| self := a_trainer cls_Trainer (a_model cls_cWGAN None 10) 4;
     env := a_world [] |}.

(** The scenario with other numbers of epochs and saving intervals. *)
Definition a_state_with (epochs weight_saving_interval : Z) : state :=
  {| self :=
       {| trainer_cls := cls_Trainer; save_dir := "run"; num_critic_iters := 1;
          batch_size := 4; model := a_model cls_cWGAN (Some Adam) 10;
          data := (examples_x, examples_y); epochs := epochs;
          num_training_examples := 8;
          weight_saving_interval := weight_saving_interval;
          critic_losses := []; generator_losses := []; wass_estimates := [] |};
     env := a_world [] |}.

(** A parameter dictionary of the scenario, and collaborators that succeed. *)
Definition some_params : gmap string value :=
  list_to_map
    [("num_critic_iters", VInt 1); ("batch_size", VInt 4);
     ("gen_lr", VFloat 1%Z); ("critic_lr", VFloat 3%Z);
     ("clip_value", VFloat 1%Z); ("optimizer", VStr "Adam");
     ("noise_dims", VInt 10); ("gp_weight", VFloat 10%Z);
     ("data_path", VStr "jets.txt"); ("epochs", VInt 1);
     ("weight_saving_interval", VInt 1)].

Definition make_run_directory (name : string) : M world string :=
  ret ("run_" +:+ name).

Definition load_examples (path : string) : M world (list (list Z) * list (list Z)) :=
  ret (examples_x, examples_y).

End Toy.

(** * A backend with IEEE 754's special values

    The scalars of the small backend, with the two infinities and NaN
    beside them.  Finite values are integers and computed exactly; an
    operation on an infinity or on NaN follows the rules of IEEE 754, which
    float32 obeys: [inf - inf], [0 * inf] and [inf / inf] are NaN, and NaN
    absorbs every operation.  The networks are those of the small
    backend. *)

Module Ieee.

Inductive xfloat := Fin (z : Z) | PInf | NInf | NaN.

Definition inf (negative : bool) : xfloat := if negative then NInf else PInf.

Definition xneg (a : xfloat) : xfloat :=
  match a with
  | Fin z => Fin (- z)
  | PInf => NInf
  | NInf => PInf
  | NaN => NaN
  end.

Definition xadd (a b : xfloat) : xfloat :=
  match a, b with
  | NaN, _ | _, NaN => NaN
  | PInf, NInf | NInf, PInf => NaN
  | PInf, _ | _, PInf => PInf
  | NInf, _ | _, NInf => NInf
  | Fin x, Fin y => Fin (x + y)
  end.

Definition xsub (a b : xfloat) : xfloat := xadd a (xneg b).

Definition xmul (a b : xfloat) : xfloat :=
  match a, b with
  | NaN, _ | _, NaN => NaN
  | Fin x, Fin y => Fin (x * y)
  | Fin x, PInf | PInf, Fin x => if (x =? 0)%Z then NaN else inf (x <? 0)%Z
  | Fin x, NInf | NInf, Fin x => if (x =? 0)%Z then NaN else inf (0 <? x)%Z
  | PInf, PInf | NInf, NInf => PInf
  | PInf, NInf | NInf, PInf => NInf
  end.

Definition xdiv (a b : xfloat) : xfloat :=
  match a, b with
  | NaN, _ | _, NaN => NaN
  | Fin x, Fin y =>
      if (y =? 0)%Z then (if (x =? 0)%Z then NaN else inf (x <? 0)%Z)
      else Fin (x `div` y)
  | Fin _, _ => Fin 0
  | PInf, Fin y => inf (y <? 0)%Z
  | NInf, Fin y => inf (0 <=? y)%Z
  | _, _ => NaN
  end.

Definition xsqrt (a : xfloat) : xfloat :=
  match a with
  | Fin x => if (x <? 0)%Z then NaN else Fin (Z.sqrt x)
  | PInf => PInf
  | NInf | NaN => NaN
  end.

Definition xsum (v : list xfloat) : xfloat := foldr xadd (Fin 0) v.

Definition ieee_call (a : architecture) (w : list xfloat)
  (inputs : list (list (list xfloat))) (training : bool) : list (list xfloat) :=
  match a with
  | DenseCritic | ConvCritic =>
      map (fun row => [xmul (hd (Fin 0) w) (xsum row)]) (default [] (last inputs))
  | DenseGenerator _ | ConvGenerator _ =>
      map (map (xmul (hd (Fin 0) w))) (default [] (head inputs))
  end.

Definition ieee_gradient (loss : list xfloat -> xfloat) (w : list xfloat)
  : list xfloat :=
  [xdiv (xsub (loss [xadd (hd (Fin 0) w) (Fin 1)]) (loss [xsub (hd (Fin 0) w) (Fin 1)]))
        (Fin 2)].

Definition bump (i j : nat) (y : list (list xfloat)) : list (list xfloat) :=
  alter (alter (xadd (Fin 1)) j) i y.

Definition ieee_gradient_input (f : list (list xfloat) -> list (list xfloat))
  (y : list (list xfloat)) : list (list xfloat) :=
  imap (fun i row =>
          imap (fun j _ => xsub (xsum (concat (f (bump i j y)))) (xsum (concat (f y))))
               row) y.

Definition ieee_update (c : optimizer_class) (rate : xfloat) (step : nat) (sl : unit)
  (g w : list xfloat) : unit * list xfloat :=
  (tt, zip_with (fun wi gi => xsub wi (xmul rate gi)) w g).

#[export] Instance backend : Backend := {|
  scalar := xfloat;
  s0 := Fin 0;
  s1 := Fin 1;
  sadd := xadd;
  ssub := xsub;
  smul := xmul;
  sdiv := xdiv;
  sneg := xneg;
  ssqrt := xsqrt;
  s_of_nat := fun n => Fin (Z.of_nat n);
  weights := list xfloat;
  grads := list xfloat;
  slots := unit;
  keras_init := fun _ => [Fin 2];
  keras_call := ieee_call;
  tape_gradient := ieee_gradient;
  tape_gradient_input := ieee_gradient_input;
  fresh_slots := tt;
  optimizer_update := ieee_update;
  concatenate_images_labels := zip_with app
|}.

Definition a_world : world :=
  {| np_tape := fun i => 3 * i + 1;
     np_pos := 0;
     tf_tape := fun d i =>
       match d with
       | Uniform _ _ => Fin (Z.of_nat (i mod 2))
       | Normal _ _ => Fin (Z.of_nat (i mod 5) - 2)
       end;
     tf_pos := 0;
     disk := [];
     disk_faults := [];
     stdout := [] |}.

Definition a_model : cWGAN :=
  {| model_cls := cls_cWGAN; clip_value := Fin 1;
     critic_optimizer := Some (new_optimizer Adam (Fin 1));
     generator_optimizer := Some (new_optimizer Adam (Fin 1));
     gp_weight := Fin 10; noise_dims := 10;
     generator := build_generator cls_cWGAN 10; critic := build_critic cls_cWGAN |}.


End Ieee.

(** * Properties *)

Section Properties.
Context {B : Backend}.

Abbreviation vec := (list scalar).
Abbreviation batch := (list (list scalar)).
Abbreviation mstate := (cWGAN * world)%type.

(** ** The loop combinators *)

Lemma for_app {S A} (xs ys : list A) (body : A -> M S unit) (s : S) :
  for_ (xs ++ ys) body s = (for_ xs body ;; for_ ys body) s.
Proof.
  revert s. induction xs as [|x xs IH]; intros s; simpl.
  - reflexivity.
  - unfold bind in *. destruct (body x s) as [[[]|e] s1]; [apply IH | reflexivity].
Qed.

Lemma for_raise {S A} (x : A) (xs : list A) (body : A -> M S unit) (s s' : S) e :
  body x s = (Raise e, s') -> for_ (x :: xs) body s = (Raise e, s').
Proof. intros H. simpl. unfold bind. by rewrite H. Qed.

Lemma range_nonpos n : (n <= 0)%Z -> range n = [].
Proof. intros H. unfold range, seqZ. by replace (Z.to_nat n) with 0 by lia. Qed.

Lemma range_split n k :
  (0 <= k < n)%Z -> range n = range k ++ k :: seqZ (k + 1) (n - k - 1).
Proof.
  intros H. unfold range.
  replace n with (k + (1 + (n - k - 1)))%Z at 1 by lia.
  rewrite seqZ_app by lia. f_equal.
  rewrite seqZ_app by lia. simpl. f_equal.
Qed.

(** ** Tensors *)

Lemma draw_vec_length tape pos n : length (draw_vec tape pos n) = n.
Proof. revert pos. induction n; intros; simpl; [done | by rewrite IHn]. Qed.

Lemma draw_rows_length tape pos rows cols :
  length (draw_rows tape pos rows cols) = rows.
Proof. revert pos. induction rows; intros; simpl; [done | by rewrite IHrows]. Qed.






(** ** Construction *)

Ltac run :=
  unfold bind, gets, get, ret, raise, modify, lift, on_self, on_env, on_model,
    in_world, getattr; simpl.

(** C6, as the code has it: a name that is neither ["Adam"] nor ["RMSprop"]
    is accepted; construction succeeds and leaves the model without its two
    optimizer attributes. *)
Theorem unrecognised_optimizer_is_accepted (cls : model_class) (cv : scalar)
  (nd : nat) (name : string) (g c gp : scalar) :
  name <> "Adam" -> name <> "RMSprop" ->
  exists net, cWGAN_init cls cv nd name g c gp = Ok net
              /\ critic_optimizer net = None
              /\ generator_optimizer net = None
              /\ cWGAN_new cls [VFloat cv; VInt (Z.of_nat nd); VStr name;
                                VFloat g; VFloat c; VFloat gp] = Ok net.
Proof.
  intros HA HR. unfold cWGAN_new, cWGAN_init. rewrite Nat2Z.id.
  destruct (String.eqb_spec name "RMSprop") as [->|_]; [done|].
  destruct (String.eqb_spec name "Adam") as [->|_]; [done|].
  eexists. repeat split; reflexivity.
Qed.

(** A model built that way fails at its first critic step. *)
Lemma critic_step_without_optimizer (x y : batch) (net : cWGAN) (w : world) :
  critic_optimizer net = None ->
  fst (train_critic x y (net, w)) = Raise AttributeError.
Proof.
  intros H. unfold train_critic, cWGAN_train_critic, cWGAN_mnist_train_critic,
    interpolate_data, tf_random.
  run. destruct (model_cls net); run; by rewrite H.
Qed.

Lemma five_arguments_are_refused (cls : model_class) (a b c d e : value) :
  cWGAN_new cls [a; b; c; d; e] = Raise TypeError.
Proof. reflexivity. Qed.

(** C9: whatever the parameter dictionary holds, and whatever the
    collaborators do, [MNISTTrainer.__init__] raises: it passes five
    positional arguments to a constructor of six parameters. *)
Theorem MNISTTrainer_init_always_raises
  (make_save_directory : string -> M world string)
  (load_mnist_data : M world (batch * batch))
  (params_dict : gmap string value) (w : world) :
  exists e w',
    MNISTTrainer_init make_save_directory load_mnist_data params_dict w
    = (Raise e, w').
Proof.
  unfold MNISTTrainer_init, bind, lift.
  destruct (make_save_directory "cWGAN" w) as [[dir|e] w1]; [|by eauto].
  repeat match goal with
         | |- context [dict_get params_dict ?k] =>
             destruct (dict_get params_dict k); [|by eauto]
         end.
  rewrite five_arguments_are_refused. by eauto.
Qed.

(** With every key present the error is the [TypeError] of the call. *)
Lemma MNISTTrainer_init_TypeError
  (make_save_directory : string -> M world string)
  (load_mnist_data : M world (batch * batch))
  (params_dict : gmap string value) (w w1 : world) (dir : string) :
  make_save_directory "cWGAN" w = (Ok dir, w1) ->
  (forall k, k ∈ ["num_critic_iters"; "batch_size"; "clip_value"; "noise_dims";
                  "gen_lr"; "critic_lr"; "gp_weight"] -> is_Some (params_dict !! k)) ->
  MNISTTrainer_init make_save_directory load_mnist_data params_dict w
  = (Raise TypeError, w1).
Proof.
  intros Hdir Hkeys. unfold MNISTTrainer_init, bind, lift. rewrite Hdir.
  unfold dict_get.
  repeat match goal with
         | |- context [params_dict !! ?k] =>
             let H := fresh in
             destruct (Hkeys k) as [? H];
               [solve [repeat first [apply list_elem_of_here
                                    | apply list_elem_of_further]]
               | rewrite H]
         end.
  reflexivity.
Qed.

(** ** Sampling *)

(** C7, as the code has it: a batch larger than the data set makes the
    draw fail with NumPy's [ValueError], before anything is drawn. *)
Theorem oversized_batch_raises_ValueError (s : state) :
  (Z.of_nat (num_training_examples (self s)) < batch_size (self s))%Z ->
  sample_batch_of_data s = (Raise ValueError, s).
Proof.
  intros H. unfold sample_batch_of_data, np_random_choice. run.
  destruct (batch_size (self s) <? 0)%Z; [by destruct s|].
  destruct (Z.ltb_spec (Z.of_nat (num_training_examples (self s))) (batch_size (self s)));
    [by destruct s | lia].
Qed.

(** ** The loop when no batch fits *)

Lemma epochs_without_batches (l : list Z) (s : state) :
  exists s', for_ l (train_epoch 0) s = (Ok tt, s')
             /\ self s' = self s
             /\ np_pos (env s') = np_pos (env s)
             /\ tf_pos (env s') = tf_pos (env s)
             /\ disk (env s') = disk (env s)
             /\ disk_faults (env s') = disk_faults (env s)
             /\ stdout (env s') = stdout (env s) ++ map EpochLine l.
Proof.
  revert s. induction l as [|epoch l IH]; intros s.
  - exists s. simpl. rewrite app_nil_r. by repeat split.
  - cbn [for_]. unfold train_epoch at 1. rewrite range_nonpos by lia. run.
    destruct (IH {| self := self s; env := print (EpochLine epoch) (env s) |})
      as (s' & -> & Hself & Hnp & Htf & Hdisk & Hfaults & Hout).
    exists s'. simpl in *. rewrite Hout, <- app_assoc. by repeat split.
Qed.

(** C10: with a batch size above the number of examples, [train] returns
    normally; no optimizer has stepped and no history has grown (the
    trainer is as it was), nothing was sampled, nothing was written. *)
Theorem train_with_oversized_batch_does_nothing (s : state) :
  (Z.of_nat (num_training_examples (self s)) < batch_size (self s))%Z ->
  exists s', train s = (Ok tt, s')
             /\ (Z.of_nat (num_training_examples (self s)) `div` batch_size (self s) = 0)%Z
             /\ self s' = self s
             /\ np_pos (env s') = np_pos (env s)
             /\ tf_pos (env s') = tf_pos (env s)
             /\ disk (env s') = disk (env s)
             /\ disk_faults (env s') = disk_faults (env s)
             /\ stdout (env s') = stdout (env s) ++ map EpochLine (range (epochs (self s))).
Proof.
  intros H. unfold train, floordiv. run.
  destruct (Z.eqb_spec (batch_size (self s)) 0) as [E|_]; [lia|].
  rewrite Z.div_small by lia. run.
  destruct (epochs_without_batches (range (epochs (self s))) s)
    as (s' & -> & Hself & Hnp & Htf & Hdisk & Hfaults & Hout).
  exists s'. by repeat split.
Qed.

(** ** The optimization steps of the model *)

Lemma with_variables_id (m : keras_model) :
  with_variables m (trainable_variables m) = m.
Proof. by destruct m. Qed.


Lemma gradient_penalty_eq (x y_real y_gen : batch) (net : cWGAN) (w : world) :
  gradient_penalty x y_real y_gen (net, w)
  = (Ok (penalty_at (critic net) x
           (interpolate (draw_rows (tf_tape w (Normal s0 s1)) (tf_pos w) (length y_real) 1)
              y_real y_gen)),
     (net, set_tf_pos (tf_pos w + length y_real * 1) w)).
Proof. reflexivity. Qed.

Lemma cWGAN_train_critic_eq (x y : batch) (net : cWGAN) (w : world) (o : optimizer) :
  critic_optimizer net = Some o ->
  let w1 := after_noise net w x in
  let predicted_y := call (generator net) [x; noise_of net w x] false in
  let y_interpolated :=
    interpolate (draw_rows (tf_tape w (Normal s0 s1)) (tf_pos w1) (length y) 1)
      y predicted_y in
  let objective := critic_objective net x y predicted_y y_interpolated in
  let step := apply_gradients o
                (tape_gradient objective (trainable_variables (critic net)))
                (critic net) in
  cWGAN_train_critic x y (net, w)
  = (Ok (objective (trainable_variables (critic net))),
     (set_critic (fst step) (snd step) net,
      set_tf_pos (tf_pos w1 + length y * 1) w1)).
Proof.
  intros Ho. unfold cWGAN_train_critic, interpolate_data, tf_random. run.
  rewrite Ho. run.
  by destruct (apply_gradients _ _ _).
Qed.

Lemma cWGAN_mnist_train_critic_eq (labels images : batch) (net : cWGAN) (w : world)
  (o : optimizer) :
  critic_optimizer net = Some o ->
  let concat_real := concatenate_images_labels images labels in
  let generated_images := call (generator net) [labels; noise_of net w labels] false in
  let concat_fake := concatenate_images_labels generated_images labels in
  let objective := mnist_critic_objective net concat_real concat_fake in
  let step := apply_gradients o
                (tape_gradient objective (trainable_variables (critic net)))
                (critic net) in
  cWGAN_mnist_train_critic labels images (net, w)
  = (Ok (objective (trainable_variables (critic net))),
     (set_critic (fst step) (snd step) net, after_noise net w labels)).
Proof.
  intros Ho. unfold cWGAN_mnist_train_critic, tf_random. run.
  rewrite Ho. run.
  by destruct (apply_gradients _ _ _).
Qed.

Lemma cWGAN_train_generator_eq (x : batch) (net : cWGAN) (w : world) (o : optimizer) :
  generator_optimizer net = Some o ->
  let objective := generator_objective net x (noise_of net w x) in
  let step := apply_gradients o
                (tape_gradient objective (trainable_variables (generator net)))
                (generator net) in
  cWGAN_train_generator x (net, w)
  = (Ok (objective (trainable_variables (generator net))),
     (set_generator (fst step) (snd step) net, after_noise net w x)).
Proof.
  intros Ho. unfold cWGAN_train_generator, tf_random. run.
  rewrite Ho. run.
  by destruct (apply_gradients _ _ _).
Qed.

Lemma cWGAN_mnist_train_generator_eq (labels : batch) (net : cWGAN) (w : world)
  (o : optimizer) :
  generator_optimizer net = Some o ->
  let objective := mnist_generator_objective net labels (noise_of net w labels) in
  let step := apply_gradients o
                (tape_gradient objective (trainable_variables (generator net)))
                (generator net) in
  cWGAN_mnist_train_generator labels (net, w)
  = (Ok (objective (trainable_variables (generator net))),
     (set_generator (fst step) (snd step) net, after_noise net w labels)).
Proof.
  intros Ho. unfold cWGAN_mnist_train_generator, tf_random. run.
  rewrite Ho. run.
  by destruct (apply_gradients _ _ _).
Qed.

Lemma make_generator_predictions_eq (x : batch) (net : cWGAN) (w : world) :
  make_generator_predictions x (net, w)
  = (Ok (call (generator net) [x; noise_of net w x] false), (net, after_noise net w x)).
Proof. reflexivity. Qed.

Lemma apply_gradients_iterations (o : optimizer) (g : grads) (m : keras_model) :
  iterations (fst (apply_gradients o g m)) = S (iterations o)
  /\ arch (snd (apply_gradients o g m)) = arch m.
Proof. unfold apply_gradients. by destruct (optimizer_update _ _ _ _ _ _). Qed.

(** The dense critic step: the loss differentiated and returned is the
    critic loss plus [gp_weight] times the penalty that [gradient_penalty]
    computes on the same batch. *)
Lemma dense_critic_step_adds_the_penalty (x y : batch) (net : cWGAN) (w : world)
  (o : optimizer) :
  model_cls net = cls_cWGAN -> critic_optimizer net = Some o ->
  let w1 := after_noise net w x in
  let predicted_y := call (generator net) [x; noise_of net w x] false in
  let real_output := call (critic net) [x; y] true in
  let fake_output := call (critic net) [x; predicted_y] true in
  exists gp objective s',
    fst (gradient_penalty x y predicted_y (net, w1)) = Ok gp
    /\ train_critic x y (net, w)
       = (Ok (sadd (critic_loss real_output fake_output) (smul (gp_weight net) gp)), s')
    /\ objective (trainable_variables (critic net))
       = sadd (critic_loss real_output fake_output) (smul (gp_weight net) gp)
    /\ critic (fst s')
       = snd (apply_gradients o
                (tape_gradient objective (trainable_variables (critic net)))
                (critic net)).
Proof.
  intros Hcls Ho w1 predicted_y real_output fake_output.
  eexists _, _, _. rewrite gradient_penalty_eq. split; [reflexivity|].
  unfold train_critic. run. rewrite Hcls.
  rewrite (cWGAN_train_critic_eq x y net w o Ho). cbv zeta.
  unfold critic_objective at 1. rewrite !with_variables_id.
  split; [reflexivity|]. split; [|reflexivity].
  unfold critic_objective. by rewrite !with_variables_id.
Qed.

(** C1 on the MNIST subclass: the loss its critic step differentiates and
    returns is the critic loss alone; [gp_weight] and the gradient penalty
    do not enter it. *)
Theorem mnist_critic_step_omits_the_penalty (labels images : batch) (net : cWGAN)
  (w : world) (o : optimizer) :
  model_cls net = cls_cWGAN_mnist -> critic_optimizer net = Some o ->
  let concat_real := concatenate_images_labels images labels in
  let generated_images := call (generator net) [labels; noise_of net w labels] false in
  let concat_fake := concatenate_images_labels generated_images labels in
  let loss := fun v =>
    critic_loss (call (with_variables (critic net) v) [concat_real] true)
                (call (with_variables (critic net) v) [concat_fake] true) in
  let step := apply_gradients o
                (tape_gradient loss (trainable_variables (critic net)))
                (critic net) in
  train_critic labels images (net, w)
  = (Ok (critic_loss (call (critic net) [concat_real] true)
                     (call (critic net) [concat_fake] true)),
     (set_critic (fst step) (snd step) net, after_noise net w labels)).
Proof.
  intros Hcls Ho. cbv zeta. unfold train_critic. run. rewrite Hcls.
  rewrite (cWGAN_mnist_train_critic_eq labels images net w o Ho). cbv zeta.
  unfold mnist_critic_objective at 1. by rewrite !with_variables_id.
Qed.

(** ** Frames of the steps *)

Lemma train_critic_frame (x y : batch) (s : mstate) :
  generator (fst (snd (train_critic x y s))) = generator (fst s)
  /\ generator_optimizer (fst (snd (train_critic x y s))) = generator_optimizer (fst s).
Proof.
  destruct s as [net w]. unfold train_critic. run.
  destruct (model_cls net), (critic_optimizer net) as [o|] eqn:Ho.
  - by rewrite (cWGAN_train_critic_eq x y net w o Ho).
  - unfold cWGAN_train_critic, interpolate_data, tf_random. run. by rewrite Ho.
  - by rewrite (cWGAN_mnist_train_critic_eq x y net w o Ho).
  - unfold cWGAN_mnist_train_critic, tf_random. run. by rewrite Ho.
Qed.

Lemma train_generator_frame (x : batch) (s : mstate) :
  critic (fst (snd (train_generator x s))) = critic (fst s)
  /\ critic_optimizer (fst (snd (train_generator x s))) = critic_optimizer (fst s).
Proof.
  destruct s as [net w]. unfold train_generator. run.
  destruct (model_cls net), (generator_optimizer net) as [o|] eqn:Ho.
  - by rewrite (cWGAN_train_generator_eq x net w o Ho).
  - unfold cWGAN_train_generator, tf_random. run. by rewrite Ho.
  - by rewrite (cWGAN_mnist_train_generator_eq x net w o Ho).
  - unfold cWGAN_mnist_train_generator, tf_random. run. by rewrite Ho.
Qed.

Lemma on_model_eq {A} (m : M mstate A) (s : state) :
  on_model m s
  = (fst (m (model (self s), env s)),
     {| self := set_model (fst (snd (m (model (self s), env s)))) (self s);
        env := snd (snd (m (model (self s), env s))) |}).
Proof. unfold on_model. by destruct (m _) as [r [net w]]. Qed.

Lemma sample_batch_self (s : state) : self (snd (sample_batch_of_data s)) = self s.
Proof.
  unfold sample_batch_of_data. run.
  destruct (np_random_choice _ _ _) as [[ix|e] w]; [|done]. simpl.
  destruct (take_rows (fst _) ix); [|done]. simpl.
  by destruct (take_rows (snd _) ix).
Qed.

Lemma take_critic_step_frame (s : state) :
  generator (model (self (snd (take_critic_step s)))) = generator (model (self s))
  /\ generator_optimizer (model (self (snd (take_critic_step s))))
     = generator_optimizer (model (self s)).
Proof.
  destruct (take_critic_step s) as [r s'] eqn:H. simpl.
  unfold take_critic_step, bind in H.
  pose proof (sample_batch_self s) as Hs.
  destruct (sample_batch_of_data s) as [[xy|e] s1]; simpl in Hs;
    [|injection H as _ <-; by rewrite Hs].
  rewrite on_model_eq in H.
  destruct (train_critic_frame (fst xy) (snd xy) (model (self s1), env s1)) as [Hg Ho].
  destruct (train_critic _ _ _) as [[l|e] [net w]]; simpl in *;
    injection H as _ <-; simpl; by rewrite <- Hs.
Qed.

Lemma take_generator_step_frame (s : state) :
  critic (model (self (snd (take_generator_step s)))) = critic (model (self s))
  /\ critic_optimizer (model (self (snd (take_generator_step s))))
     = critic_optimizer (model (self s)).
Proof.
  destruct (take_generator_step s) as [r s'] eqn:H. simpl.
  pose proof (sample_batch_self s) as Hs.
  unfold take_generator_step, bind, gets in H.
  destruct (trainer_cls (self s));
    unfold Trainer_take_generator_step, MNISTTrainer_take_generator_step, bind in H;
    (destruct (sample_batch_of_data s) as [[xy|e] s1]; simpl in Hs;
     [|injection H as _ <-; by rewrite Hs]);
    rewrite on_model_eq in H;
    destruct (train_generator_frame (fst xy) (model (self s1), env s1)) as [Hg Ho];
    (destruct (train_generator _ _) as [[l|e] [net w]]; simpl in *;
     injection H as _ <-; simpl; by rewrite <- Hs).
Qed.

(** C5: a critic step leaves the generator and its optimizer as they
    were, a generator step leaves the critic and its optimizer as they
    were, whether the step returns or raises; so it is for the model's
    methods and for the trainer's steps. *)
Theorem steps_touch_only_their_own_network (x y : batch) (m : mstate) (s : state) :
  (generator (fst (snd (train_critic x y m))) = generator (fst m)
   /\ generator_optimizer (fst (snd (train_critic x y m))) = generator_optimizer (fst m))
  /\ (critic (fst (snd (train_generator x m))) = critic (fst m)
      /\ critic_optimizer (fst (snd (train_generator x m))) = critic_optimizer (fst m))
  /\ (generator (model (self (snd (take_critic_step s)))) = generator (model (self s))
      /\ generator_optimizer (model (self (snd (take_critic_step s))))
         = generator_optimizer (model (self s)))
  /\ (critic (model (self (snd (take_generator_step s)))) = critic (model (self s))
      /\ critic_optimizer (model (self (snd (take_generator_step s))))
         = critic_optimizer (model (self s))).
Proof.
  split; [apply train_critic_frame|].
  split; [apply train_generator_frame|].
  split; [apply take_critic_step_frame | apply take_generator_step_frame].
Qed.

(** ** Sampling succeeds when the batch fits *)

Lemma np_pick_spec (tape : nat -> nat) (pos : nat) (pool : list nat) (k : nat) :
  k <= length pool ->
  length (np_pick tape pos pool k) = k
  /\ Forall (fun i => i ∈ pool) (np_pick tape pos pool k).
Proof.
  revert pos pool. induction k as [|k IH]; intros pos pool Hk; [by split|].
  destruct pool as [|p pool]; [simpl in Hk; lia|].
  cbn [np_pick].
  set (i := tape pos mod length (p :: pool)).
  assert (i < length (p :: pool)) as Hi.
  { apply Nat.mod_upper_bound. done. }
  destruct (IH (S pos) (delete i (p :: pool))) as [Hlen Hall].
  { rewrite length_delete by (apply lookup_lt_is_Some; done). simpl in *. lia. }
  split; [simpl; by rewrite Hlen|].
  constructor.
  - apply list_elem_of_In, nth_In. done.
  - eapply Forall_impl; [exact Hall|]. intros j Hj.
    by apply list_elem_of_delete_inv in Hj.
Qed.

Lemma take_rows_ok (a : batch) (indices : list nat) :
  Forall (fun i => i < length a) indices ->
  exists rows, take_rows a indices = Ok rows /\ length rows = length indices.
Proof.
  intros H. unfold take_rows.
  destruct (mapM (fun i => a !! i) indices) as [rows|] eqn:E.
  - exists rows. split; [done|]. symmetry. by eapply length_mapM.
  - apply mapM_None in E. apply Exists_exists in E as (i & Hi & Hnone).
    rewrite Forall_forall in H. apply H in Hi.
    apply lookup_ge_None in Hnone. lia.
Qed.

Lemma sample_batch_ok (s : state) :
  can_sample (self s) ->
  exists x y,
    sample_batch_of_data s
    = (Ok (x, y),
       {| self := self s;
          env := set_np_pos (np_pos (env s) + Z.to_nat (batch_size (self s))) (env s) |})
    /\ length x = Z.to_nat (batch_size (self s))
    /\ length y = Z.to_nat (batch_size (self s)).
Proof.
  intros ((Hlo & Hhi) & Hx & Hy). unfold sample_batch_of_data, np_random_choice. run.
  destruct (Z.ltb_spec (batch_size (self s)) 0); [lia|].
  destruct (Z.ltb_spec (Z.of_nat (num_training_examples (self s))) (batch_size (self s)));
    [lia|]. simpl.
  destruct (np_pick_spec (np_tape (env s)) (np_pos (env s))
              (seq 0 (num_training_examples (self s)))
              (Z.to_nat (batch_size (self s)))) as [Hlen Hall].
  { rewrite length_seq. lia. }
  set (ix := np_pick _ _ _ _) in *.
  assert (Forall (fun i => i < num_training_examples (self s)) ix) as Hlt.
  { eapply Forall_impl; [exact Hall|]. intros i Hi. apply elem_of_seq in Hi. lia. }
  destruct (take_rows_ok (fst (data (self s))) ix) as (x & -> & Hlx).
  { eapply Forall_impl; [exact Hlt|]. simpl. lia. }
  destruct (take_rows_ok (snd (data (self s))) ix) as (y & -> & Hly).
  { eapply Forall_impl; [exact Hlt|]. simpl. lia. }
  exists x, y. simpl. split; [done|]. lia.
Qed.

(** ** The steps succeed and advance the counters *)

Lemma train_critic_ok (x y : batch) (net : cWGAN) (w : world) (o : optimizer) :
  critic_optimizer net = Some o ->
  exists l o' c' p,
    train_critic x y (net, w) = (Ok l, (set_critic o' c' net, set_tf_pos p w))
    /\ iterations o' = S (iterations o) /\ arch c' = arch (critic net).
Proof.
  intros Ho. unfold train_critic. run. destruct (model_cls net).
  - rewrite (cWGAN_train_critic_eq x y net w o Ho). cbv zeta.
    eexists _, _, _, _. split; [reflexivity|]. apply apply_gradients_iterations.
  - rewrite (cWGAN_mnist_train_critic_eq x y net w o Ho). cbv zeta.
    eexists _, _, _, _. split; [reflexivity|]. apply apply_gradients_iterations.
Qed.

Lemma train_generator_ok (x : batch) (net : cWGAN) (w : world) (o : optimizer) :
  generator_optimizer net = Some o ->
  exists l o' g',
    train_generator x (net, w)
    = (Ok l, (set_generator o' g' net, after_noise net w x))
    /\ iterations o' = S (iterations o) /\ arch g' = arch (generator net).
Proof.
  intros Ho. unfold train_generator. run. destruct (model_cls net).
  - rewrite (cWGAN_train_generator_eq x net w o Ho). cbv zeta.
    eexists _, _, _. split; [reflexivity|]. apply apply_gradients_iterations.
  - rewrite (cWGAN_mnist_train_generator_eq x net w o Ho). cbv zeta.
    eexists _, _, _. split; [reflexivity|]. apply apply_gradients_iterations.
Qed.

Lemma take_generator_step_eq (s s1 : state) (x y : batch) (o : optimizer) :
  sample_batch_of_data s = (Ok (x, y), s1) ->
  generator_optimizer (model (self s)) = Some o ->
  exists l o' g',
    let net := set_generator o' g' (model (self s)) in
    let w1 := after_noise net (env s1) x in
    take_generator_step s
    = (Ok tt,
       {| self := append_wass_estimate
                    (recorded_estimate (trainer_cls (self s)) net w1 x y)
                    (append_generator_loss l (set_model net (self s)));
          env := after_noise net w1 x |})
    /\ iterations o' = S (iterations o) /\ arch g' = arch (generator (model (self s))).
Proof.
  intros Hsample Ho.
  pose proof (sample_batch_self s) as Hs. rewrite Hsample in Hs. simpl in Hs.
  destruct (train_generator_ok x (model (self s)) (env s1) o Ho)
    as (l & o' & g' & Hgen & Hit & Harch).
  exists l, o', g'. split; [|done].
  unfold take_generator_step. run.
  destruct (trainer_cls (self s));
    unfold Trainer_take_generator_step, MNISTTrainer_take_generator_step, bind;
    rewrite Hsample; cbn [fst snd]; rewrite on_model_eq, Hs, Hgen; reflexivity.
Qed.

(** C3: the estimate appended by [take_generator_step] is the negation of
    [critic_loss] on the critic's outputs for the sampled batch and for the
    generator's prediction on it, with the critic and the generator both
    called with [training=False] (on the model as the generator update
    left it, the prediction on noise drawn for it). *)
Theorem wass_estimate_is_negated_critic_loss (s s1 : state) (x y : batch)
  (o : optimizer) :
  sample_batch_of_data s = (Ok (x, y), s1) ->
  generator_optimizer (model (self s)) = Some o ->
  exists s',
    take_generator_step s = (Ok tt, s')
    /\ let net := model (self s') in
       let noise := noise_of net (after_noise net (env s1) x) x in
       let predicted_y := call (generator net) [x; noise] false in
       let real_output :=
         match trainer_cls (self s) with
         | cls_Trainer => call (critic net) [x; y] false
         | cls_MNISTTrainer =>
             call (critic net) [concatenate_images_labels y x] false
         end in
       let fake_output :=
         match trainer_cls (self s) with
         | cls_Trainer => call (critic net) [x; predicted_y] false
         | cls_MNISTTrainer =>
             call (critic net) [concatenate_images_labels predicted_y x] false
         end in
       wass_estimates (self s')
       = wass_estimates (self s) ++ [sneg (critic_loss real_output fake_output)].
Proof.
  intros Hsample Ho.
  destruct (take_generator_step_eq s s1 x y o Hsample Ho) as (l & o' & g' & H & _).
  cbv zeta in H. eexists. split; [exact H|].
  simpl. unfold recorded_estimate. by destruct (trainer_cls (self s)).
Qed.

(** ** Counting through an iteration *)

Lemma advanced_refl (s : state) : advanced 0 0 s s.
Proof.
  split; rewrite ?Nat.add_0_r; try done.
  - by destruct (critic_optimizer _); simpl; rewrite ?Nat.add_0_r.
  - by destruct (generator_optimizer _); simpl; rewrite ?Nat.add_0_r.
Qed.

Lemma advanced_trans (a b c d : nat) (s1 s2 s3 : state) :
  advanced a b s1 s2 -> advanced c d s2 s3 -> advanced (a + c) (b + d) s1 s3.
Proof.
  intros [] [].
  assert (batch_size (self s2) = batch_size (self s1)) as Hbs
    by (unfold settings in *; congruence).
  split; try congruence; try lia.
  - rewrite adv_critic_steps1, adv_critic_steps0.
    destruct (critic_optimizer (model (self s1))); simpl; [f_equal; lia | done].
  - rewrite adv_generator_steps1, adv_generator_steps0.
    destruct (generator_optimizer (model (self s1))); simpl; [f_equal; lia | done].
Qed.

Lemma advanced_ready (a b : nat) (s s' : state) :
  advanced a b s s' ->
  can_sample (self s) -> has_optimizers (self s) ->
  can_sample (self s') /\ has_optimizers (self s').
Proof.
  intros [] Hc [Ho1 Ho2]. split.
  - unfold can_sample, settings in *.
    replace (batch_size (self s')) with (batch_size (self s)) by congruence.
    replace (num_training_examples (self s'))
      with (num_training_examples (self s)) by congruence.
    replace (data (self s')) with (data (self s)) by congruence. done.
  - unfold has_optimizers, steps_of in *.
    destruct Ho1 as [o1 Ho1], Ho2 as [o2 Ho2].
    rewrite Ho1 in adv_critic_steps0. rewrite Ho2 in adv_generator_steps0.
    split.
    + destruct (critic_optimizer (model (self s'))); [by eexists | done].
    + destruct (generator_optimizer (model (self s'))); [by eexists | done].
Qed.

Lemma take_critic_step_ok (s : state) :
  can_sample (self s) -> has_optimizers (self s) ->
  exists s', take_critic_step s = (Ok tt, s') /\ advanced 1 0 s s'.
Proof.
  intros Hc [[o Ho] _].
  destruct (sample_batch_ok s Hc) as (x & y & Hsample & Hx & Hy).
  destruct (train_critic_ok x y (model (self s))
              (set_np_pos (np_pos (env s) + Z.to_nat (batch_size (self s))) (env s))
              o Ho) as (l & o' & c' & p & Hstep & Hit & Harch).
  unfold take_critic_step, bind. rewrite Hsample. cbn [fst snd].
  rewrite on_model_eq. cbn [self env]. rewrite Hstep. cbn [fst snd].
  eexists. split; [reflexivity|].
  split; simpl; rewrite ?Nat.add_0_r; try done.
  - unfold settings. simpl. by rewrite Harch.
  - by rewrite length_app.
  - rewrite Ho. simpl. f_equal. lia.
  - by destruct (generator_optimizer _); simpl; rewrite ?Nat.add_0_r.
Qed.

Lemma take_generator_step_ok (s : state) :
  can_sample (self s) -> has_optimizers (self s) ->
  exists s', take_generator_step s = (Ok tt, s') /\ advanced 0 1 s s'.
Proof.
  intros Hc [_ [o Ho]].
  destruct (sample_batch_ok s Hc) as (x & y & Hsample & Hx & Hy).
  destruct (take_generator_step_eq s _ x y o Hsample Ho)
    as (l & o' & g' & H & Hit & Harch).
  cbv zeta in H. eexists. split; [exact H|].
  split; simpl; rewrite ?Nat.add_0_r; try done.
  - unfold settings. simpl. by rewrite Harch.
  - by rewrite length_app.
  - by rewrite length_app.
  - by destruct (critic_optimizer _); simpl; rewrite ?Nat.add_0_r.
  - rewrite Ho. simpl. f_equal. lia.
Qed.

Lemma critic_loop_ok {A} (l : list A) (s : state) :
  can_sample (self s) -> has_optimizers (self s) ->
  exists s', for_ l (fun _ => take_critic_step) s = (Ok tt, s')
             /\ advanced (length l) 0 s s'.
Proof.
  revert s. induction l as [|a l IH]; intros s Hc Ho.
  - exists s. split; [done | apply advanced_refl].
  - destruct (take_critic_step_ok s Hc Ho) as (s1 & H1 & Ha1).
    destruct (advanced_ready _ _ _ _ Ha1 Hc Ho) as [Hc1 Ho1].
    destruct (IH s1 Hc1 Ho1) as (s2 & H2 & Ha2).
    exists s2. split.
    + cbn [for_]. unfold bind. by rewrite H1.
    + apply (advanced_trans 1 0 (length l) 0 s s1 s2 Ha1 Ha2).
Qed.

Lemma range_length (n : Z) : length (range n) = Z.to_nat n.
Proof. unfold range. apply length_seqZ. Qed.

Lemma string_app_assoc (a b c : string) : (a +:+ b) +:+ c = a +:+ b +:+ c.
Proof.
  induction a as [|ch a IH]; [done|].
  change (String ch ((a +:+ b) +:+ c) = String ch (a +:+ b +:+ c)).
  by rewrite IH.
Qed.

Lemma ends_with_slash_app (a : string) (c : Ascii.ascii) (b : string) :
  ends_with_slash (a +:+ String c b) = ends_with_slash (String c b).
Proof.
  induction a as [|ch a IH]; [done|].
  cbn [String.append]. rewrite <- IH. cbn [ends_with_slash].
  by destruct a.
Qed.

Lemma checkpoint_name_eq (t : Trainer) (iteration : Z) :
  checkpoint_name t iteration
  = save_dir t +:+ "/training_checkpoints/gen_" +:+ str iteration.
Proof.
  unfold checkpoint_name, os_path_join.
  replace (String.prefix "/" ("gen_" +:+ str iteration)) with false by done.
  replace (String.eqb (save_dir t +:+ "/training_checkpoints") "") with false
    by (by destruct (save_dir t)).
  rewrite ends_with_slash_app.
  replace (ends_with_slash "/training_checkpoints") with false by done.
  by rewrite string_app_assoc.
Qed.

Lemma take_steps_ok (s : state) :
  can_sample (self s) -> has_optimizers (self s) ->
  exists s_c s_g,
    for_ (range (num_critic_iters (self s))) (fun _ => take_critic_step) s = (Ok tt, s_c)
    /\ advanced (Z.to_nat (num_critic_iters (self s))) 0 s s_c
    /\ take_generator_step s_c = (Ok tt, s_g)
    /\ advanced 0 1 s_c s_g
    /\ take_steps s = (Ok tt, s_g).
Proof.
  intros Hc Ho.
  destruct (critic_loop_ok (range (num_critic_iters (self s))) s Hc Ho)
    as (s_c & Hloop & Ha).
  rewrite range_length in Ha.
  destruct (advanced_ready _ _ _ _ Ha Hc Ho) as [Hc' Ho'].
  destruct (take_generator_step_ok s_c Hc' Ho') as (s_g & Hgen & Hb).
  exists s_c, s_g. do 4 (split; [done|]).
  unfold take_steps, bind, gets. by rewrite Hloop.
Qed.

Lemma save_weights_eq (iteration : Z) (s : state) :
  save_weights iteration s
  = let w := print (SavingLine (checkpoint_name (self s) iteration)) (env s) in
    match disk_faults (env s) with
    | Some e :: rest =>
        (Raise e, {| self := self s; env := set_disk (disk w) rest w |})
    | None :: rest =>
        (Ok tt,
         {| self := self s;
            env := set_disk
                     (disk w ++ [(checkpoint_name (self s) iteration,
                                  trainable_variables (generator (model (self s))))])
                     rest w |})
    | [] =>
        (Ok tt,
         {| self := self s;
            env := set_disk
                     (disk w ++ [(checkpoint_name (self s) iteration,
                                  trainable_variables (generator (model (self s))))])
                     [] w |})
    end.
Proof.
  unfold save_weights, keras_save_weights, checkpoint_name. run.
  by destruct (disk_faults (env s)) as [|[e|] rest].
Qed.

(** C4: one iteration of the loop runs [num_critic_iters] critic steps and
    then one generator step, each on a batch sampled for it; the critic's
    optimizer has applied [num_critic_iters] updates and the generator's
    one, [critic_losses] has grown by [num_critic_iters] entries,
    [generator_losses] and [wass_estimates] by one each (a count below zero
    runs no critic step, [range] being empty then).  The generator's
    variables are written to the iteration's checkpoint file when the
    iteration is a multiple of [weight_saving_interval]; so at iteration 0
    when the interval is 1. *)
Theorem iteration_steps_and_histories (s : state) (batches_per_epoch epoch batch_number : Z) :
  can_sample (self s) -> has_optimizers (self s) ->
  weight_saving_interval (self s) <> 0%Z ->
  next_write_succeeds (env s) ->
  let k := Z.to_nat (num_critic_iters (self s)) in
  let iteration := (epoch * batches_per_epoch + batch_number)%Z in
  exists s_c s_g s',
    for_ (range (num_critic_iters (self s))) (fun _ => take_critic_step) s = (Ok tt, s_c)
    /\ advanced k 0 s s_c
    /\ take_generator_step s_c = (Ok tt, s_g)
    /\ advanced 0 1 s_c s_g
    /\ train_iteration batches_per_epoch epoch batch_number s = (Ok tt, s')
    /\ self s' = self s_g
    /\ length (critic_losses (self s')) = length (critic_losses (self s)) + k
    /\ length (generator_losses (self s')) = length (generator_losses (self s)) + 1
    /\ length (wass_estimates (self s')) = length (wass_estimates (self s)) + 1
    /\ steps_of (critic_optimizer (model (self s')))
       = (fun n => n + k) <$> steps_of (critic_optimizer (model (self s)))
    /\ steps_of (generator_optimizer (model (self s')))
       = (fun n => n + 1) <$> steps_of (generator_optimizer (model (self s)))
    /\ np_pos (env s') = np_pos (env s) + (k + 1) * Z.to_nat (batch_size (self s))
    /\ disk (env s')
       = disk (env s)
         ++ (if (iteration `mod` weight_saving_interval (self s) =? 0)%Z
             then [(checkpoint_name (self s) iteration,
                    trainable_variables (generator (model (self s'))))]
             else [])
    /\ (num_critic_iters (self s) = 1%Z ->
        length (critic_losses (self s')) = length (critic_losses (self s)) + 1)
    /\ (weight_saving_interval (self s) = 1%Z -> iteration = 0%Z ->
        disk (env s')
        = disk (env s)
          ++ [(save_dir (self s) +:+ "/training_checkpoints/gen_0",
               trainable_variables (generator (model (self s'))))]).
Proof.
  intros Hc Ho Hwsi Hdisk k iteration.
  destruct (take_steps_ok s Hc Ho) as (s_c & s_g & Hloop & Ha & Hgen & Hb & Hsteps).
  pose proof (advanced_trans _ _ _ _ _ _ _ Ha Hb) as Hab.
  rewrite Nat.add_0_r in Hab. simpl in Hab. fold k in Hab.
  destruct Hab as [Hset Hcl Hgl Hwl Hcs Hgs Hnp Htape Hd Hf Hout].
  assert (weight_saving_interval (self s_g) = weight_saving_interval (self s)) as Ew
    by (unfold settings in Hset; congruence).
  assert (save_dir (self s_g) = save_dir (self s)) as Edir
    by (unfold settings in Hset; congruence).
  assert (exists a, last (wass_estimates (self s_g)) = Some a) as [a Hlast].
  { apply last_is_Some. intros E. rewrite E in Hwl. simpl in Hwl. lia. }
  assert (exists s',
    train_iteration batches_per_epoch epoch batch_number s = (Ok tt, s')
    /\ self s' = self s_g
    /\ np_pos (env s') = np_pos (env s_g)
    /\ disk (env s')
       = disk (env s_g)
         ++ (if (iteration `mod` weight_saving_interval (self s) =? 0)%Z
             then [(checkpoint_name (self s) iteration,
                    trainable_variables (generator (model (self s_g))))]
             else [])) as (s' & Hrun & Hself & Hnp' & Hdisk').
  { unfold train_iteration, bind at 1. rewrite Hsteps.
    unfold pymod. run. rewrite Ew.
    destruct (Z.eqb_spec (weight_saving_interval (self s)) 0) as [|_]; [done|].
    run. fold iteration.
    destruct (iteration `mod` weight_saving_interval (self s) =? 0)%Z.
    - rewrite save_weights_eq. cbv zeta. unfold next_write_succeeds in Hdisk.
      rewrite Hf. unfold checkpoint_name. rewrite Edir.
      destruct (disk_faults (env s)) as [|[e|] rest]; [|done|];
        simpl; unfold last_item; rewrite Hlast; run;
        eexists; repeat split; reflexivity.
    - simpl. unfold last_item. rewrite Hlast. run.
      eexists. repeat split; simpl; by rewrite ?app_nil_r. }
  exists s_c, s_g, s'. rewrite Hself, Hnp', Hdisk', Hd.
  do 12 (split; [done|]). split; [done|]. split.
  - intros E. rewrite Hcl. subst k. by rewrite E.
  - intros E1 E0. rewrite E1, E0. simpl. by rewrite checkpoint_name_eq.
Qed.

(** C8, as the code has it: when the write of a checkpoint fails, the
    exception it raised leaves [save_weights], the iteration and [train]
    unchanged; the loop stops there.  The failed save leaves the trainer
    (networks, optimizers, histories) and the files on disk as they were
    and has printed its [SavingLine]. *)
Theorem failed_save_aborts_training (s0 sA s s2 : state)
  (batches_per_epoch epoch batch_number : Z) (e : exn) (rest : list (option exn)) :
  batch_size (self s0) <> 0%Z ->
  batches_per_epoch
  = (Z.of_nat (num_training_examples (self s0)) `div` batch_size (self s0))%Z ->
  (0 <= epoch < epochs (self s0))%Z ->
  (0 <= batch_number < batches_per_epoch)%Z ->
  for_ (range epoch) (train_epoch batches_per_epoch) s0 = (Ok tt, sA) ->
  for_ (range batch_number) (train_iteration batches_per_epoch epoch) sA = (Ok tt, s) ->
  take_steps s = (Ok tt, s2) ->
  weight_saving_interval (self s2) <> 0%Z ->
  ((epoch * batches_per_epoch + batch_number)
     `mod` weight_saving_interval (self s2) = 0)%Z ->
  disk_faults (env s2) = Some e :: rest ->
  let iteration := (epoch * batches_per_epoch + batch_number)%Z in
  exists s3,
    save_weights iteration s2 = (Raise e, s3)
    /\ train_iteration batches_per_epoch epoch batch_number s = (Raise e, s3)
    /\ train s0 = (Raise e, s3)
    /\ self s3 = self s2
    /\ disk (env s3) = disk (env s2)
    /\ disk_faults (env s3) = rest
    /\ stdout (env s3)
       = stdout (env s2) ++ [SavingLine (checkpoint_name (self s2) iteration)].
Proof.
  intros Hbs Hbpe Hepoch Hbn HA Hs Hsteps Hwsi Hmod Hfault iteration.
  eexists. split; [rewrite save_weights_eq, Hfault; reflexivity|].
  assert (train_iteration batches_per_epoch epoch batch_number s
          = (Raise e,
             {| self := self s2;
                env := set_disk (disk (env s2)) rest
                         (print (SavingLine (checkpoint_name (self s2) iteration))
                                (env s2)) |})) as Hit.
  { unfold train_iteration, bind at 1. rewrite Hsteps. unfold pymod. run.
    destruct (Z.eqb_spec (weight_saving_interval (self s2)) 0) as [|_]; [done|].
    run. rewrite Hmod. simpl. rewrite save_weights_eq, Hfault. reflexivity. }
  split; [exact Hit|]. split; [|by repeat split].
  unfold train, floordiv. run.
  destruct (Z.eqb_spec (batch_size (self s0)) 0) as [|_]; [done|]. run.
  rewrite <- Hbpe.
  rewrite (range_split (epochs (self s0)) epoch Hepoch), for_app.
  unfold bind at 1. rewrite HA.
  apply for_raise. unfold train_epoch, bind at 1.
  rewrite (range_split batches_per_epoch batch_number Hbn), for_app.
  unfold bind at 1. rewrite Hs.
  by rewrite (for_raise _ _ _ _ _ _ Hit).
Qed.

(** ** The penalty on equal batches *)


End Properties.

(** * The properties on the small backend *)

Import Toy.

(** The dense critic step on [x4], [y4]: a critic loss of 37, a penalty of
    9, and [gp_weight] 10. *)
Example dense_critic_step_on_x4 :
  fst (train_critic x4 y4 (a_model cls_cWGAN (Some Adam) 10, a_world [])) = Ok 127%Z
  /\ fst (train_critic x4 y4 (a_model cls_cWGAN (Some Adam) 0, a_world [])) = Ok 37%Z.
Proof. split; vm_compute; reflexivity. Qed.

(** The MNIST critic step on the same batch returns the critic loss, 37,
    for [gp_weight] 10 as for [gp_weight] 0. *)
Lemma mnist_critic_step_on_x4 :
  fst (train_critic x4 y4 (a_model cls_cWGAN_mnist (Some Adam) 10, a_world []))
  = Ok 37%Z
  /\ fst (train_critic x4 y4 (a_model cls_cWGAN_mnist (Some Adam) 0, a_world []))
     = Ok 37%Z.
Proof.
  split.
  - rewrite (mnist_critic_step_omits_the_penalty (B:=backend) x4 y4
               (a_model cls_cWGAN_mnist (Some Adam) 10) (a_world []) adam
               eq_refl eq_refl).
    vm_compute. reflexivity.
  - rewrite (mnist_critic_step_omits_the_penalty (B:=backend) x4 y4
               (a_model cls_cWGAN_mnist (Some Adam) 0) (a_world []) adam
               eq_refl eq_refl).
    vm_compute. reflexivity.
Defined.


Lemma infinities_are_not_exact (t : Ieee.xfloat) :
  ~ exact_at (B:=Ieee.backend) t Ieee.PInf
  /\ ~ exact_at (B:=Ieee.backend) t Ieee.NInf.
Proof. unfold exact_at. split; by destruct t. Qed.



Lemma wass_estimate_on_first_batch :
  sample_batch_of_data (a_state 4 [])
  = (Ok (x_drawn, y_drawn), snd (sample_batch_of_data (a_state 4 [])))
  /\ generator_optimizer (model (self (a_state 4 []))) = Some adam
  /\ exists s', take_generator_step (a_state 4 []) = (Ok tt, s')
                /\ length (wass_estimates (self s')) = 1.
Proof.
  assert (sample_batch_of_data (a_state 4 [])
          = (Ok (x_drawn, y_drawn), snd (sample_batch_of_data (a_state 4 []))))
    as Hsample.
  { rewrite (surjective_pairing (sample_batch_of_data (a_state 4 []))) at 1.
    f_equal. }
  split; [exact Hsample|]. split; [reflexivity|].
  destruct (wass_estimate_is_negated_critic_loss (B:=backend) (a_state 4 []) _ x_drawn y_drawn
              adam Hsample eq_refl) as (s' & Hrun & Hw).
  exists s'. split; [exact Hrun|]. cbv zeta in Hw. rewrite Hw. reflexivity.
Defined.

Lemma a_state_is_ready :
  can_sample (self (a_state 4 [])) /\ has_optimizers (self (a_state 4 [])).
Proof.
  split.
  - unfold can_sample. simpl. lia.
  - split; eexists; reflexivity.
Qed.

Lemma first_iteration_of_the_scenario :
  exists s', train_iteration 2 0 0 (a_state 4 []) = (Ok tt, s')
             /\ length (critic_losses (self s')) = 1
             /\ length (generator_losses (self s')) = 1
             /\ length (wass_estimates (self s')) = 1
             /\ disk (env s')
                = [("run/training_checkpoints/gen_0",
                    trainable_variables (generator (model (self s'))))].
Proof.
  destruct a_state_is_ready as [Hc Ho].
  destruct (iteration_steps_and_histories (B:=backend) (a_state 4 []) 2 0 0 Hc Ho
              ltac:(discriminate) I)
    as (s_c & s_g & s' & _ & _ & _ & _ & Hrun & _ & Hcl & Hgl & Hwl & _ & _ & _ & _
        & _ & Hdisk).
  exists s'. split; [exact Hrun|].
  split; [exact Hcl|]. split; [exact Hgl|]. split; [exact Hwl|].
  exact (Hdisk eq_refl eq_refl).
Defined.

Lemma SGD_is_accepted :
  exists net, cWGAN_init cls_cWGAN 1%Z 10 "SGD" 1%Z 1%Z 10%Z = Ok net
              /\ critic_optimizer net = None.
Proof.
  destruct (unrecognised_optimizer_is_accepted (B:=backend) cls_cWGAN 1%Z 10 "SGD" 1%Z 1%Z 10%Z)
    as (net & Hnet & Hc & _); [discriminate | discriminate |].
  by exists net.
Defined.

(** C6 fails on the code: the optimizer name ["SGD"] is accepted. *)
Lemma SGD_raises_no_ConfigurationError :
  "SGD" <> "Adam" /\ "SGD" <> "RMSprop"
  /\ cWGAN_init cls_cWGAN 1%Z 10 "SGD" 1%Z 1%Z 10%Z
     = Ok (a_model cls_cWGAN None 10)
  /\ cWGAN_init cls_cWGAN 1%Z 10 "SGD" 1%Z 1%Z 10%Z <> Raise ConfigurationError.
Proof. repeat split; discriminate || reflexivity. Qed.

Lemma batch_of_nine_from_eight :
  sample_batch_of_data (a_state 9 []) = (Raise ValueError, a_state 9 []).
Proof. apply (oversized_batch_raises_ValueError (B:=backend)). simpl. lia. Defined.

(** C7 fails on the code: the error of an oversized batch is NumPy's
    [ValueError]. *)
Lemma oversized_batch_raises_no_InsufficientDataError :
  (Z.of_nat (num_training_examples (self (a_state 9 [])))
   < batch_size (self (a_state 9 [])))%Z
  /\ fst (sample_batch_of_data (a_state 9 [])) = Raise ValueError
  /\ fst (sample_batch_of_data (a_state 9 [])) <> Raise InsufficientDataError.
Proof.
  split; [simpl; lia|].
  assert (fst (sample_batch_of_data (a_state 9 [])) = Raise ValueError) as H
    by (vm_compute; reflexivity).
  split; [exact H|]. rewrite H. discriminate.
Qed.

Lemma train_on_batches_of_nine :
  exists s', train (a_state 9 []) = (Ok tt, s')
             /\ self s' = self (a_state 9 [])
             /\ disk (env s') = []
             /\ np_pos (env s') = 0.
Proof.
  destruct (train_with_oversized_batch_does_nothing (B:=backend) (a_state 9 []))
    as (s' & Hrun & _ & Hself & Hnp & _ & Hdisk & _); [simpl; lia|].
  exists s'. by repeat split.
Defined.

(** C8 fails on the code: with a disk that refuses the first write, [train]
    raises the [OSError] of the write and stops after one of the two
    iterations of the epoch. *)
Lemma failed_save_stops_the_loop :
  fst (train (a_state 4 [Some OSError])) = Raise OSError
  /\ fst (train (a_state 4 [Some OSError])) <> Raise PersistenceError
  /\ length (generator_losses (self (snd (train (a_state 4 [Some OSError]))))) = 1
  /\ length (generator_losses (self (snd (train (a_state 4 []))))) = 2.
Proof.
  assert (fst (train (a_state 4 [Some OSError])) = Raise OSError) as H
    by (vm_compute; reflexivity).
  split; [exact H|]. split; [rewrite H; discriminate|].
  split; vm_compute; reflexivity.
Qed.

Lemma failed_save_in_the_scenario :
  exists s3, train (a_state 4 [Some OSError]) = (Raise OSError, s3)
             /\ self s3 = self (snd (take_steps (a_state 4 [Some OSError])))
             /\ disk (env s3) = [].
Proof.
  pose (s := a_state 4 [Some OSError]).
  assert (take_steps s = (Ok tt, snd (take_steps s))) as Hsteps.
  { rewrite (surjective_pairing (take_steps s)) at 1. f_equal. }
  destruct (failed_save_aborts_training (B:=backend) s s s (snd (take_steps s))
              2 0 0 OSError [])
    as (s3 & _ & _ & Htrain & Hself & Hdisk & _).
  - discriminate.
  - reflexivity.
  - simpl. lia.
  - lia.
  - reflexivity.
  - reflexivity.
  - exact Hsteps.
  - vm_compute. discriminate.
  - vm_compute. reflexivity.
  - vm_compute. reflexivity.
  - exists s3. split; [exact Htrain|]. split; [exact Hself|].
    rewrite Hdisk. vm_compute. reflexivity.
Defined.

(** C9 on a dictionary that holds every key *)
Example MNISTTrainer_init_on_full_dict (w : world) :
  let params : gmap string value :=
    list_to_map
      [("num_critic_iters", VInt 1); ("batch_size", VInt 4);
       ("clip_value", VFloat 1%Z); ("noise_dims", VInt 10);
       ("gen_lr", VFloat 1%Z); ("critic_lr", VFloat 1%Z);
       ("gp_weight", VFloat 10%Z); ("epochs", VInt 1);
       ("weight_saving_interval", VInt 1)] in
  MNISTTrainer_init (fun name => ret ("run_" +:+ name))
    (ret (examples_x, examples_y)) params w
  = (Raise TypeError, w).
Proof.
  intros params. apply (MNISTTrainer_init_TypeError (B:=backend) _ _ _ _ _ "run_cWGAN"); [done|].
  intros k Hk. unfold params.
  repeat (apply elem_of_cons in Hk as [->|Hk]; [by eexists|]).
  by apply elem_of_nil in Hk.
Qed.

(** * Further properties of the module *)

Section MoreProperties.
Context {B : Backend}.

Abbreviation vec := (list scalar).
Abbreviation batch := (list (list scalar)).
Abbreviation mstate := (cWGAN * world)%type.

(** ** The sampler *)

Lemma np_pick_elem (tape : nat -> nat) (k pos : nat) (pool : list nat) :
  Forall (fun i => i ∈ pool) (np_pick tape pos pool k).
Proof.
  revert pos pool. induction k as [|k IH]; intros pos pool; [constructor|].
  destruct pool as [|p pool]; [constructor|].
  cbn [np_pick]. set (i := tape pos mod length (p :: pool)).
  constructor.
  - apply list_elem_of_In, nth_In, Nat.mod_upper_bound. done.
  - eapply Forall_impl; [apply IH|]. intros j Hj.
    by apply list_elem_of_delete_inv in Hj.
Qed.

Lemma np_pick_NoDup (tape : nat -> nat) (k pos : nat) (pool : list nat) :
  NoDup pool -> NoDup (np_pick tape pos pool k).
Proof.
  revert pos pool. induction k as [|k IH]; intros pos pool Hpool; [constructor|].
  destruct pool as [|p pool]; [constructor|].
  cbn [np_pick]. set (i := tape pos mod length (p :: pool)).
  assert (i < length (p :: pool)) as Hi by (apply Nat.mod_upper_bound; done).
  destruct (lookup_lt_is_Some_2 (p :: pool) i Hi) as [a Ha].
  rewrite nth_lookup, Ha. cbn [default].
  pose proof (take_drop_middle _ _ _ Ha) as Hmid.
  rewrite <- Hmid in Hpool.
  apply NoDup_app in Hpool as (Htake & Hnot & Hdrop).
  apply NoDup_cons in Hdrop as (Ha_drop & Hdrop).
  assert (NoDup (delete i (p :: pool))) as Hdel.
  { rewrite delete_take_drop. apply NoDup_app. repeat split; [done| |done].
    intros b Hb Hb'. apply (Hnot b Hb). by right. }
  constructor; [|by apply IH].
  intros Hin.
  pose proof (np_pick_elem tape k (S pos) (delete i (p :: pool))) as Hall.
  rewrite Forall_forall in Hall. apply Hall in Hin.
  rewrite delete_take_drop in Hin. apply elem_of_app in Hin as [Hin|Hin].
  - apply (Hnot a Hin). by left.
  - by apply Ha_drop.
Qed.

Lemma take_rows_Ok (a : batch) (indices : list nat) (rows : batch) :
  take_rows a indices = Ok rows ->
  Forall2 (fun i row => a !! i = Some row) indices rows.
Proof.
  unfold take_rows. destruct (mapM _ indices) as [r|] eqn:E; [|done].
  intros [= <-]. by apply mapM_Some.
Qed.

(** X1: when the batch fits, [sample_batch_of_data] returns [batch_size]
    distinct indices below the number of examples and the rows of the two
    arrays at those same indices: conditions and targets stay paired and no
    example occurs twice in a batch.  The trainer is unchanged and NumPy's
    tape has advanced by [batch_size] samples. *)
Theorem sampled_batch_is_paired_and_distinct (s : state) :
  can_sample (self s) ->
  exists indices x y s',
    sample_batch_of_data s = (Ok (x, y), s')
    /\ length indices = Z.to_nat (batch_size (self s))
    /\ NoDup indices
    /\ Forall (fun i => i < num_training_examples (self s)) indices
    /\ Forall2 (fun i row => fst (data (self s)) !! i = Some row) indices x
    /\ Forall2 (fun i row => snd (data (self s)) !! i = Some row) indices y
    /\ self s' = self s
    /\ np_pos (env s') = np_pos (env s) + Z.to_nat (batch_size (self s)).
Proof.
  intros Hc. pose proof Hc as ((Hlo & Hhi) & Hx & Hy).
  destruct (sample_batch_ok s Hc) as (x & y & Hrun & _ & _).
  set (ix := np_pick (np_tape (env s)) (np_pos (env s))
               (seq 0 (num_training_examples (self s)))
               (Z.to_nat (batch_size (self s)))).
  destruct (np_pick_spec (np_tape (env s)) (np_pos (env s))
              (seq 0 (num_training_examples (self s)))
              (Z.to_nat (batch_size (self s)))) as [Hlen Hall].
  { rewrite length_seq. lia. }
  exists ix, x, y. eexists. split; [exact Hrun|].
  split; [exact Hlen|].
  split; [apply np_pick_NoDup, NoDup_seq|].
  split.
  { eapply Forall_impl; [exact Hall|]. intros i Hi. apply elem_of_seq in Hi. lia. }
  unfold sample_batch_of_data, np_random_choice in Hrun.
  unfold bind, gets, on_env, lift, ret in Hrun.
  destruct (Z.ltb_spec (batch_size (self s)) 0); [lia|].
  destruct (Z.ltb_spec (Z.of_nat (num_training_examples (self s))) (batch_size (self s)));
    [lia|]. cbn [fst snd self env] in Hrun. fold ix in Hrun.
  destruct (take_rows (fst (data (self s))) ix) as [x'|] eqn:Ex; [|done].
  destruct (take_rows (snd (data (self s))) ix) as [y'|] eqn:Ey; [|done].
  injection Hrun as <- <-.
  split; [by apply take_rows_Ok|]. split; [by apply take_rows_Ok|]. done.
Qed.

(** X2: with both arrays holding the examples counted, sampling returns a
    batch exactly when [0 <= batch_size <= num_training_examples]; outside
    that range it raises [ValueError] and changes nothing, so for a
    negative size too. *)
Theorem sampling_succeeds_iff_batch_fits (s : state) :
  num_training_examples (self s) <= length (fst (data (self s))) ->
  num_training_examples (self s) <= length (snd (data (self s))) ->
  ((exists xy, fst (sample_batch_of_data s) = Ok xy)
   <-> (0 <= batch_size (self s) <= Z.of_nat (num_training_examples (self s)))%Z)
  /\ ((batch_size (self s) < 0
       \/ Z.of_nat (num_training_examples (self s)) < batch_size (self s))%Z ->
      sample_batch_of_data s = (Raise ValueError, s)).
Proof.
  intros Hx Hy.
  assert ((batch_size (self s) < 0
           \/ Z.of_nat (num_training_examples (self s)) < batch_size (self s))%Z ->
          sample_batch_of_data s = (Raise ValueError, s)) as Hfail.
  { intros Hout. unfold sample_batch_of_data, np_random_choice.
    unfold bind, gets, on_env. cbn [fst snd self env].
    destruct (Z.ltb_spec (batch_size (self s)) 0); [by destruct s|].
    destruct (Z.ltb_spec (Z.of_nat (num_training_examples (self s)))
                (batch_size (self s))); [by destruct s | lia]. }
  split; [|exact Hfail]. split.
  - intros [xy Hok].
    destruct (Z.lt_ge_cases (batch_size (self s)) 0) as [Hneg|Hnn].
    { rewrite Hfail in Hok by (by left). done. }
    destruct (Z.lt_ge_cases (Z.of_nat (num_training_examples (self s)))
                (batch_size (self s))) as [Hbig|Hfit].
    { rewrite Hfail in Hok by (by right). done. }
    lia.
  - intros Hfit. destruct (sample_batch_ok s) as (x & y & Hrun & _).
    { unfold can_sample. lia. }
    exists (x, y). by rewrite Hrun.
Qed.

Lemma rows_at_permutation (l rows : batch) (indices : list nat) :
  Forall2 (fun i row => l !! i = Some row) indices rows ->
  indices ≡ₚ seq 0 (length l) ->
  rows ≡ₚ l.
Proof.
  intros Hrows Hperm.
  assert (rows = map (fun i => default [] (l !! i)) indices) as ->.
  { clear Hperm. induction Hrows as [|i row ix rows Hi _ IH]; [done|].
    cbn [map]. rewrite Hi. cbn [default]. by f_equal. }
  rewrite Hperm. clear.
  assert (forall k, map (fun i => default [] (l !! i)) (seq k (length l - k))
                    = drop k l) as H.
  { intros k. remember (length l - k) as n eqn:En.
    revert k En. induction n as [|n IH]; intros k En.
    - simpl. symmetry. apply drop_ge. lia.
    - destruct (lookup_lt_is_Some_2 l k) as [a Ha]; [lia|].
      assert (n = length l - S k) as En' by lia.
      cbn [seq map]. rewrite (IH (S k) En'), Ha.
      symmetry. by apply drop_S. }
  specialize (H 0). rewrite Nat.sub_0_r in H. by rewrite H.
Qed.

(** X3: a batch as large as the data set holds every example exactly once:
    the sampled conditions are a permutation of the conditions array, the
    sampled targets of the targets array. *)
Theorem full_batch_is_a_permutation (s : state) :
  batch_size (self s) = Z.of_nat (num_training_examples (self s)) ->
  length (fst (data (self s))) = num_training_examples (self s) ->
  length (snd (data (self s))) = num_training_examples (self s) ->
  exists x y s',
    sample_batch_of_data s = (Ok (x, y), s')
    /\ x ≡ₚ fst (data (self s))
    /\ y ≡ₚ snd (data (self s)).
Proof.
  intros Hbs Hx Hy.
  assert (can_sample (self s)) as Hc by (unfold can_sample; lia).
  destruct (sample_batch_ok s Hc) as (x & y & Hrun & _ & _).
  exists x, y. eexists. split; [exact Hrun|].
  set (n := num_training_examples (self s)) in *.
  set (ix := np_pick (np_tape (env s)) (np_pos (env s)) (seq 0 n) n).
  assert (ix ≡ₚ seq 0 n) as Hperm.
  { destruct (np_pick_spec (np_tape (env s)) (np_pos (env s)) (seq 0 n) n)
      as [Hlen Hall]; [by rewrite length_seq|].
    apply submseteq_length_Permutation.
    - apply NoDup_submseteq; [apply np_pick_NoDup, NoDup_seq|].
      by apply Forall_forall.
    - fold ix in Hlen. rewrite length_seq, Hlen. done. }
  unfold sample_batch_of_data, np_random_choice in Hrun.
  unfold bind, gets, on_env, lift, ret in Hrun.
  destruct (Z.ltb_spec (batch_size (self s)) 0); [lia|].
  destruct (Z.ltb_spec (Z.of_nat (num_training_examples (self s))) (batch_size (self s)));
    [lia|]. cbn [fst snd self env] in Hrun.
  rewrite Hbs, Nat2Z.id in Hrun. fold n ix in Hrun.
  destruct (take_rows (fst (data (self s))) ix) as [x'|] eqn:Ex; [|done].
  destruct (take_rows (snd (data (self s))) ix) as [y'|] eqn:Ey; [|done].
  injection Hrun as <- <-.
  split.
  - apply (rows_at_permutation _ _ ix); [by apply take_rows_Ok | by rewrite Hx].
  - apply (rows_at_permutation _ _ ix); [by apply take_rows_Ok | by rewrite Hy].
Qed.

(** ** Steps that raise *)

Lemma set_model_id (t : Trainer) : set_model (model t) t = t.
Proof. by destruct t. Qed.

Lemma same_outside_refl (w : world) : same_outside w w.
Proof. by repeat split. Qed.

Lemma same_outside_trans (w1 w2 w3 : world) :
  same_outside w1 w2 -> same_outside w2 w3 -> same_outside w1 w3.
Proof. unfold same_outside. intros (?&?&?&?&?) (?&?&?&?&?). repeat split; congruence. Qed.

Lemma sample_batch_outside (s : state) :
  same_outside (env s) (env (snd (sample_batch_of_data s))).
Proof.
  unfold sample_batch_of_data, np_random_choice, bind, gets, on_env, lift, ret.
  cbn [fst snd self env].
  destruct (batch_size (self s) <? 0)%Z; [apply same_outside_refl|].
  destruct (Z.of_nat (num_training_examples (self s)) <? batch_size (self s))%Z;
    [apply same_outside_refl|].
  cbn [fst snd self env].
  destruct (take_rows (fst _) _); [|by repeat split].
  destruct (take_rows (snd _) _); by repeat split.
Qed.

Lemma train_critic_raise (x y : batch) (net : cWGAN) (w : world) (e : exn) (m' : mstate) :
  train_critic x y (net, w) = (Raise e, m') ->
  e = AttributeError /\ critic_optimizer net = None
  /\ fst m' = net /\ same_outside w (snd m').
Proof.
  destruct (critic_optimizer net) as [o|] eqn:Ho.
  - destruct (train_critic_ok x y net w o Ho) as (l & o' & c' & p & -> & _). done.
  - unfold train_critic, cWGAN_train_critic, cWGAN_mnist_train_critic,
      interpolate_data, tf_random.
    unfold bind, gets, getattr, in_world, raise, ret. cbn [fst snd].
    destruct (model_cls net); cbn [fst snd]; rewrite Ho;
      intros [= <- <-]; by repeat split.
Qed.

Lemma train_generator_raise (x : batch) (net : cWGAN) (w : world) (e : exn) (m' : mstate) :
  train_generator x (net, w) = (Raise e, m') ->
  e = AttributeError /\ generator_optimizer net = None
  /\ fst m' = net /\ same_outside w (snd m').
Proof.
  destruct (generator_optimizer net) as [o|] eqn:Ho.
  - destruct (train_generator_ok x net w o Ho) as (l & o' & g' & -> & _). done.
  - unfold train_generator, cWGAN_train_generator, cWGAN_mnist_train_generator,
      tf_random.
    unfold bind, gets, getattr, in_world, raise, ret. cbn [fst snd].
    destruct (model_cls net); cbn [fst snd]; rewrite Ho;
      intros [= <- <-]; by repeat split.
Qed.

Lemma take_critic_step_raise (s s' : state) (e : exn) :
  take_critic_step s = (Raise e, s') ->
  self s' = self s /\ same_outside (env s) (env s').
Proof.
  intros H. unfold take_critic_step, bind in H.
  pose proof (sample_batch_self s) as Hs.
  pose proof (sample_batch_outside s) as Hw.
  destruct (sample_batch_of_data s) as [[xy|e1] s1]; cbn [fst snd] in *;
    [|by injection H as _ <-].
  rewrite on_model_eq in H.
  destruct (train_critic (fst xy) (snd xy) (model (self s1), env s1))
    as [[l|e2] [net w]] eqn:Hstep; cbn [fst snd] in H; [done|].
  apply train_critic_raise in Hstep as (_ & _ & Hnet & Hw'). cbn [fst snd] in *.
  injection H as _ <-. cbn [self env]. subst net.
  split; [by rewrite set_model_id | by eapply same_outside_trans].
Qed.

Lemma take_generator_step_raise (s s' : state) (e : exn) :
  take_generator_step s = (Raise e, s') ->
  self s' = self s /\ same_outside (env s) (env s').
Proof.
  intros H. unfold take_generator_step, bind, gets in H.
  pose proof (sample_batch_self s) as Hs.
  pose proof (sample_batch_outside s) as Hw.
  destruct (trainer_cls (self s));
    unfold Trainer_take_generator_step, MNISTTrainer_take_generator_step, bind in H;
    (destruct (sample_batch_of_data s) as [[xy|e1] s1]; cbn [fst snd] in *;
     [|by injection H as _ <-]);
    rewrite on_model_eq in H;
    (destruct (train_generator (fst xy) (model (self s1), env s1))
       as [[l|e2] [net w]] eqn:Hstep; cbn [fst snd] in H; [done|]);
    apply train_generator_raise in Hstep as (_ & _ & Hnet & Hw');
    cbn [fst snd] in *; injection H as _ <-; cbn [self env]; subst net;
    (split; [by rewrite set_model_id | by eapply same_outside_trans]).
Qed.

(** X4: a critic step that raises has changed no object: the update of
    the critic and the entry in [critic_losses] are the last things the
    step does, so the trainer, with its networks, optimizers and histories,
    is as it was, nothing was written and nothing printed; only the random
    generators may have advanced. *)
Theorem failed_critic_step_changes_no_object (s s' : state) (e : exn) :
  take_critic_step s = (Raise e, s') ->
  self s' = self s
  /\ disk (env s') = disk (env s)
  /\ disk_faults (env s') = disk_faults (env s)
  /\ stdout (env s') = stdout (env s)
  /\ np_tape (env s') = np_tape (env s)
  /\ tf_tape (env s') = tf_tape (env s).
Proof.
  intros H.
  apply take_critic_step_raise in H as (Hself & Hd & Hf & Ho & Hnp & Htf). done.
Qed.

(** ** The loop at its edges *)

Lemma generator_step_without_optimizer (x : batch) (net : cWGAN) (w : world) :
  generator_optimizer net = None ->
  fst (train_generator x (net, w)) = Raise AttributeError.
Proof.
  intros H. unfold train_generator, cWGAN_train_generator,
    cWGAN_mnist_train_generator, tf_random.
  unfold bind, gets, getattr, in_world, raise, ret. cbn [fst snd].
  destruct (model_cls net); cbn [fst snd]; by rewrite H.
Qed.

Lemma take_critic_step_no_optimizer (s : state) :
  can_sample (self s) -> critic_optimizer (model (self s)) = None ->
  exists s', take_critic_step s = (Raise AttributeError, s').
Proof.
  intros Hc Ho. destruct (sample_batch_ok s Hc) as (x & y & Hsample & _).
  unfold take_critic_step, bind. rewrite Hsample. cbn [fst snd].
  rewrite on_model_eq. cbn [self env].
  rewrite (critic_step_without_optimizer x y _ _ Ho). by eexists.
Qed.

Lemma take_generator_step_no_optimizer (s : state) :
  can_sample (self s) -> generator_optimizer (model (self s)) = None ->
  exists s', take_generator_step s = (Raise AttributeError, s').
Proof.
  intros Hc Ho. destruct (sample_batch_ok s Hc) as (x & y & Hsample & _).
  unfold take_generator_step, bind, gets.
  destruct (trainer_cls (self s));
    unfold Trainer_take_generator_step, MNISTTrainer_take_generator_step, bind;
    rewrite Hsample; cbn [fst snd]; rewrite on_model_eq; cbn [self env];
    rewrite (generator_step_without_optimizer x _ _ Ho); by eexists.
Qed.

Lemma range_cons (n : Z) : (0 < n)%Z -> range n = 0%Z :: seqZ 1 (n - 1).
Proof. intros H. unfold range. rewrite seqZ_cons by done. by f_equal. Qed.

Lemma take_steps_no_optimizers (s : state) :
  can_sample (self s) ->
  critic_optimizer (model (self s)) = None ->
  generator_optimizer (model (self s)) = None ->
  exists s', take_steps s = (Raise AttributeError, s')
             /\ self s' = self s /\ same_outside (env s) (env s').
Proof.
  intros Hc Hco Hgo. unfold take_steps, bind, gets.
  destruct (Z.lt_ge_cases 0 (num_critic_iters (self s))) as [Hpos|Hnone].
  - destruct (take_critic_step_no_optimizer s Hc Hco) as (s' & H).
    rewrite (range_cons _ Hpos),
      (for_raise 0%Z _ (fun _ : Z => take_critic_step) s s' _ H).
    exists s'. split; [done|]. by apply take_critic_step_raise in H.
  - rewrite range_nonpos by done. cbn [for_]. unfold ret.
    destruct (take_generator_step_no_optimizer s Hc Hgo) as (s' & H).
    rewrite H. exists s'. split; [done|]. by apply take_generator_step_raise in H.
Qed.

Lemma train_first_iteration_raises (s s' : state) (e : exn) :
  (0 < batch_size (self s) <= Z.of_nat (num_training_examples (self s)))%Z ->
  (0 < epochs (self s))%Z ->
  train_iteration
    (Z.of_nat (num_training_examples (self s)) `div` batch_size (self s)) 0 0 s
  = (Raise e, s') ->
  train s = (Raise e, s').
Proof.
  intros Hbs Hep Hit. unfold train, floordiv, bind, gets.
  destruct (Z.eqb_spec (batch_size (self s)) 0) as [|_]; [lia|].
  unfold ret. rewrite (range_cons _ Hep). apply for_raise.
  unfold train_epoch, bind.
  assert (0 < Z.of_nat (num_training_examples (self s)) `div` batch_size (self s))%Z
    as Hbpe by (apply Z.div_str_pos; lia).
  by rewrite (range_cons _ Hbpe), (for_raise _ _ _ _ _ _ Hit).
Qed.

(** X5: on a trainer whose model has no optimizers (as a model built with
    an unrecognised optimizer name), [train] raises [AttributeError] at the
    first step of the first iteration, whenever there is at least one epoch
    and one batch per epoch: no network or history has changed, nothing was
    written, nothing printed. *)
Theorem train_without_optimizers_raises (s : state) :
  can_sample (self s) ->
  (0 < batch_size (self s))%Z -> (0 < epochs (self s))%Z ->
  critic_optimizer (model (self s)) = None ->
  generator_optimizer (model (self s)) = None ->
  exists s', train s = (Raise AttributeError, s')
             /\ self s' = self s
             /\ disk (env s') = disk (env s)
             /\ stdout (env s') = stdout (env s).
Proof.
  intros Hc Hbs Hep Hco Hgo.
  destruct (take_steps_no_optimizers s Hc Hco Hgo)
    as (s' & Hsteps & Hself & Hd & _ & Ho & _).
  exists s'. split; [|done].
  apply train_first_iteration_raises; [destruct Hc as ((?&?)&_); lia | done |].
  unfold train_iteration, bind. by rewrite Hsteps.
Qed.

(** X6: [train] divides by [batch_size] before it looks at [epochs]: a
    batch size of 0 raises [ZeroDivisionError] at once, whatever the number
    of epochs; with another batch size and no epoch to run ([epochs <= 0])
    it returns at once.  Either way nothing at all has changed. *)
Theorem train_without_work (s : state) :
  (batch_size (self s) = 0%Z -> train s = (Raise ZeroDivisionError, s))
  /\ (batch_size (self s) <> 0%Z -> (epochs (self s) <= 0)%Z -> train s = (Ok tt, s)).
Proof.
  unfold train, floordiv, bind, gets. split.
  - intros ->. reflexivity.
  - intros Hbs Hep. destruct (Z.eqb_spec (batch_size (self s)) 0) as [|_]; [done|].
    unfold ret. by rewrite range_nonpos.
Qed.

(** X7: with [weight_saving_interval] 0 the first iteration takes its
    critic steps and its generator step and then raises
    [ZeroDivisionError] at [iteration % weight_saving_interval]: [train]
    stops there, the histories and optimizers advanced by that one
    iteration, nothing written and nothing printed. *)
Theorem train_with_interval_zero (s : state) :
  can_sample (self s) -> has_optimizers (self s) ->
  (0 < batch_size (self s))%Z -> (0 < epochs (self s))%Z ->
  weight_saving_interval (self s) = 0%Z ->
  exists s', train s = (Raise ZeroDivisionError, s')
             /\ advanced (Z.to_nat (num_critic_iters (self s))) 1 s s'.
Proof.
  intros Hc Ho Hbs Hep Hwsi.
  destruct (take_steps_ok s Hc Ho) as (s_c & s_g & _ & Ha & _ & Hb & Hsteps).
  pose proof (advanced_trans _ _ _ _ _ _ _ Ha Hb) as Hab.
  rewrite Nat.add_0_r in Hab. cbn [Nat.add] in Hab.
  exists s_g. split; [|exact Hab].
  apply train_first_iteration_raises; [destruct Hc as ((?&?)&_); lia | done |].
  unfold train_iteration, bind. rewrite Hsteps. unfold gets, pymod.
  replace (weight_saving_interval (self s_g)) with 0%Z; [done|].
  destruct Hab as [Hset]. unfold settings in Hset. congruence.
Qed.

(** ** Checkpoints *)

(** X8: a [save_weights] that returns has added one file to the disk,
    [<save_dir>/training_checkpoints/gen_<iteration>], holding the
    generator's variables, and has left the trainer as it was; two
    different iterations never share a file name, so no checkpoint
    overwrites another. *)
Theorem checkpoints_are_keyed_by_iteration (s s' : state) (iteration other : Z) :
  save_weights iteration s = (Ok tt, s') ->
  disk (env s')
  = disk (env s)
    ++ [(save_dir (self s) +:+ "/training_checkpoints/gen_" +:+ str iteration,
         trainable_variables (generator (model (self s))))]
  /\ self s' = self s
  /\ (iteration <> other ->
      checkpoint_name (self s) iteration <> checkpoint_name (self s) other).
Proof.
  intros H. rewrite save_weights_eq in H. cbv zeta in H.
  rewrite checkpoint_name_eq in H.
  split; [|split].
  - destruct (disk_faults (env s)) as [|[e|] rest]; [|done|];
      by injection H as <-.
  - destruct (disk_faults (env s)) as [|[e|] rest]; [|done|];
      by injection H as <-.
  - intros Hne Heq. rewrite !checkpoint_name_eq in Heq.
    apply Hne. unfold str in Heq.
    apply (inj (String.app (save_dir (self s)))) in Heq.
    apply (inj (String.app "/training_checkpoints/gen_")) in Heq.
    by apply (inj pretty) in Heq.
Qed.

(** ** A whole run *)

Lemma trained_nil (s : state) : disk_never_fails (env s) -> trained [] s s.
Proof.
  intros Hd. split; cbn [length Nat.mul]; rewrite ?Nat.add_0_r, ?app_nil_r; try done.
  - by destruct (critic_optimizer _); cbn; rewrite ?Nat.add_0_r.
  - by destruct (generator_optimizer _); cbn; rewrite ?Nat.add_0_r.
Qed.

Lemma checkpoint_name_same_dir (t t' : Trainer) (i : Z) :
  save_dir t' = save_dir t -> checkpoint_name t' i = checkpoint_name t i.
Proof. unfold checkpoint_name. by intros ->. Qed.

Lemma trained_trans (l1 l2 : list Z) (s1 s2 s3 : state) :
  trained l1 s1 s2 -> trained l2 s2 s3 -> trained (l1 ++ l2) s1 s3.
Proof.
  intros [] [].
  assert (batch_size (self s2) = batch_size (self s1)) as Hbs
    by (unfold settings in *; congruence).
  assert (num_critic_iters (self s2) = num_critic_iters (self s1)) as Hnci
    by (unfold settings in *; congruence).
  assert (weight_saving_interval (self s2) = weight_saving_interval (self s1)) as Hwsi
    by (unfold settings in *; congruence).
  assert (save_dir (self s2) = save_dir (self s1)) as Hdir
    by (unfold settings in *; congruence).
  rewrite Hbs, Hnci, Hwsi in *.
  split; rewrite ?length_app; try congruence; try lia.
  - rewrite tr_critic_steps1, tr_critic_steps0.
    destruct (critic_optimizer (model (self s1))); cbn; [f_equal; lia | done].
  - rewrite tr_generator_steps1, tr_generator_steps0.
    destruct (generator_optimizer (model (self s1))); cbn; [f_equal; lia | done].
  - rewrite tr_saved_files1, tr_saved_files0, filter_app, map_app, <- app_assoc.
    unfold checkpoint_name. by rewrite Hdir.
  - by rewrite tr_printed1, tr_printed0, <- app_assoc.
  - intros i Hi Hmod. destruct l2 as [|j l2].
    + rewrite app_nil_r in Hi. destruct (tr_idle1 eq_refl) as [-> ->].
      by apply tr_latest0.
    + rewrite last_app in Hi. cbn [last] in Hi.
      rewrite (tr_latest1 i), (checkpoint_name_same_dir _ _ _ Hdir); [done| |done].
      destruct (last (j :: l2)) eqn:E; [done|].
      by apply last_None in E.
  - intros E. apply app_eq_nil in E as [-> ->].
    destruct (tr_idle0 eq_refl) as [<- <-]. by apply tr_idle1.
Qed.

Lemma trained_ready (l : list Z) (s s' : state) :
  trained l s s' ->
  can_sample (self s) -> has_optimizers (self s) ->
  weight_saving_interval (self s) <> 0%Z ->
  can_sample (self s') /\ has_optimizers (self s')
  /\ weight_saving_interval (self s') <> 0%Z.
Proof.
  intros [] Hc [Ho1 Ho2] Hw. split; [|split].
  - unfold can_sample, settings in *.
    replace (batch_size (self s')) with (batch_size (self s)) by congruence.
    replace (num_training_examples (self s'))
      with (num_training_examples (self s)) by congruence.
    replace (data (self s')) with (data (self s)) by congruence. done.
  - unfold has_optimizers, steps_of in *.
    destruct Ho1 as [o1 Ho1], Ho2 as [o2 Ho2].
    rewrite Ho1 in tr_critic_steps0. rewrite Ho2 in tr_generator_steps0.
    split.
    + destruct (critic_optimizer (model (self s'))); [by eexists | done].
    + destruct (generator_optimizer (model (self s'))); [by eexists | done].
  - unfold settings in *. congruence.
Qed.

Lemma train_iteration_trained (s : state) (bpe epoch bn : Z) :
  can_sample (self s) -> has_optimizers (self s) ->
  weight_saving_interval (self s) <> 0%Z ->
  disk_never_fails (env s) ->
  exists s', train_iteration bpe epoch bn s = (Ok tt, s')
             /\ trained [(epoch * bpe + bn)%Z] s s'.
Proof.
  intros Hc Ho Hwsi Hdisk. set (iteration := (epoch * bpe + bn)%Z).
  destruct (take_steps_ok s Hc Ho) as (s_c & s_g & _ & Ha & _ & Hb & Hsteps).
  pose proof (advanced_trans _ _ _ _ _ _ _ Ha Hb) as Hab.
  rewrite Nat.add_0_r in Hab. cbn [Nat.add] in Hab.
  destruct Hab as [Hset Hcl Hgl Hwl Hcs Hgs Hnp Htape Hd Hf Hout].
  assert (weight_saving_interval (self s_g) = weight_saving_interval (self s)) as Ew
    by (unfold settings in Hset; congruence).
  assert (save_dir (self s_g) = save_dir (self s)) as Edir
    by (unfold settings in Hset; congruence).
  assert (exists a, last (wass_estimates (self s_g)) = Some a) as [a Hlast].
  { apply last_is_Some. intros E. rewrite E in Hwl. simpl in Hwl. lia. }
  assert (exists s',
    train_iteration bpe epoch bn s = (Ok tt, s')
    /\ self s' = self s_g
    /\ np_pos (env s') = np_pos (env s_g)
    /\ saved_files (env s')
       = saved_files (env s_g)
         ++ map (checkpoint_name (self s))
              (filter (fun i => (i `mod` weight_saving_interval (self s) = 0)%Z)
                 [iteration])
    /\ printed_iterations (stdout (env s'))
       = printed_iterations (stdout (env s_g)) ++ [iteration]
    /\ disk_never_fails (env s')
    /\ ((iteration `mod` weight_saving_interval (self s) = 0)%Z ->
        last (disk (env s'))
        = Some (checkpoint_name (self s) iteration,
                trainable_variables (generator (model (self s_g))))))
    as (s' & Hrun & Hself & Hnp' & Hfiles & Hprinted & Hnever & Hlatest).
  { unfold train_iteration, bind at 1. rewrite Hsteps.
    unfold pymod, bind, gets, ret. rewrite Ew.
    destruct (Z.eqb_spec (weight_saving_interval (self s)) 0) as [|_]; [done|].
    fold iteration. unfold disk_never_fails in *. rewrite <- Hf in Hdisk.
    destruct (Z.eqb_spec (iteration `mod` weight_saving_interval (self s)) 0)
      as [Hdue|Hnot].
    - rewrite save_weights_eq. cbv zeta.
      assert (checkpoint_name (self s_g) iteration
              = checkpoint_name (self s) iteration) as ->
        by (unfold checkpoint_name; by rewrite Edir).
      rewrite filter_cons_True, filter_nil by exact Hdue.
      destruct (disk_faults (env s_g)) as [|[e|] rest] eqn:Hfaults;
        [|by inversion Hdisk|];
        cbn [self env]; unfold last_item; rewrite Hlast;
        unfold ret, on_env, modify; cbn [self env];
        (eexists; split; [reflexivity|]); cbn [self env];
        (split; [done|]); (split; [done|]);
        (split; [unfold saved_files; cbn; by rewrite map_app|]);
        (split; [cbn; rewrite !omap_app; cbn; by rewrite app_nil_r|]);
        (split; [cbn; try constructor; by inversion Hdisk|]);
        intros _; cbn; by rewrite last_snoc.
    - rewrite filter_cons_False, filter_nil by exact Hnot.
      cbn [self env]. unfold last_item. rewrite Hlast.
      unfold ret, on_env, modify. cbn [self env].
      eexists. split; [reflexivity|]. cbn [self env].
      split; [done|]. split; [done|].
      split; [unfold saved_files; cbn; by rewrite app_nil_r|].
      split; [cbn; by rewrite omap_app|]. split; [done|]. done. }
  exists s'. split; [exact Hrun|].
  split; rewrite ?Hself, ?Hnp', ?Hprinted, ?Hout;
    cbn [length Nat.mul]; rewrite ?Nat.add_0_r; try done.
  - unfold saved_files in *. by rewrite Hfiles, Hd.
  - intros i [= <-] Hmod. by apply Hlatest.
Qed.

Lemma batch_loop_trained (bns : list Z) (s : state) (bpe epoch : Z) :
  can_sample (self s) -> has_optimizers (self s) ->
  weight_saving_interval (self s) <> 0%Z ->
  disk_never_fails (env s) ->
  exists s', for_ bns (train_iteration bpe epoch) s = (Ok tt, s')
             /\ trained (map (fun bn => (epoch * bpe + bn)%Z) bns) s s'.
Proof.
  revert s. induction bns as [|bn bns IH]; intros s Hc Ho Hw Hd.
  - exists s. split; [done | by apply trained_nil].
  - destruct (train_iteration_trained s bpe epoch bn Hc Ho Hw Hd) as (s1 & H1 & T1).
    destruct (trained_ready _ _ _ T1 Hc Ho Hw) as (Hc1 & Ho1 & Hw1).
    destruct (IH s1 Hc1 Ho1 Hw1 (tr_disk_never_fails _ _ _ T1)) as (s2 & H2 & T2).
    exists s2. split.
    + cbn [for_]. unfold bind. by rewrite H1.
    + apply (trained_trans [_] _ s s1 s2 T1 T2).
Qed.

Lemma train_epoch_trained (s : state) (bpe epoch : Z) :
  can_sample (self s) -> has_optimizers (self s) ->
  weight_saving_interval (self s) <> 0%Z ->
  disk_never_fails (env s) ->
  exists s', train_epoch bpe epoch s = (Ok tt, s')
             /\ trained (seqZ (epoch * bpe) bpe) s s'.
Proof.
  intros Hc Ho Hw Hd.
  destruct (batch_loop_trained (range bpe) s bpe epoch Hc Ho Hw Hd) as (s1 & H1 & T1).
  unfold range in T1.
  change (map (fun bn => (epoch * bpe + bn)%Z) (seqZ 0 bpe))
    with (Z.add (epoch * bpe) <$> seqZ 0 bpe) in T1.
  rewrite fmap_add_seqZ, Z.add_0_r in T1.
  unfold train_epoch, bind. rewrite H1. unfold on_env, modify. cbn [fst snd].
  eexists. split; [reflexivity|].
  destruct T1. split; cbn [self env]; try done.
  cbn. rewrite omap_app. cbn. by rewrite app_nil_r.
Qed.

Lemma epoch_loop_trained (n : nat) (s : state) (bpe : Z) :
  (0 <= bpe)%Z ->
  can_sample (self s) -> has_optimizers (self s) ->
  weight_saving_interval (self s) <> 0%Z ->
  disk_never_fails (env s) ->
  exists s', for_ (range (Z.of_nat n)) (train_epoch bpe) s = (Ok tt, s')
             /\ trained (range (Z.of_nat n * bpe)) s s'.
Proof.
  intros Hbpe Hc Ho Hw Hd. induction n as [|n IH].
  - exists s. split; [done|]. cbn. by apply trained_nil.
  - destruct IH as (s1 & H1 & T1).
    destruct (trained_ready _ _ _ T1 Hc Ho Hw) as (Hc1 & Ho1 & Hw1).
    destruct (train_epoch_trained s1 bpe (Z.of_nat n) Hc1 Ho1 Hw1
                (tr_disk_never_fails _ _ _ T1)) as (s2 & H2 & T2).
    exists s2. split.
    + unfold range. rewrite seqZ_S, for_app. unfold bind. fold (range (Z.of_nat n)).
      rewrite H1. cbn [for_]. unfold bind. rewrite Z.add_0_l, H2. done.
    + replace (range (Z.of_nat (S n) * bpe))
        with (range (Z.of_nat n * bpe) ++ seqZ (Z.of_nat n * bpe) bpe).
      { by apply (trained_trans _ _ s s1 s2). }
      unfold range.
      replace (Z.of_nat (S n) * bpe)%Z with (Z.of_nat n * bpe + bpe)%Z by lia.
      rewrite seqZ_app by lia. by rewrite Z.add_0_l.
Qed.

Lemma train_trained (s : state) :
  can_sample (self s) -> has_optimizers (self s) ->
  (0 < batch_size (self s))%Z ->
  weight_saving_interval (self s) <> 0%Z ->
  disk_never_fails (env s) ->
  exists s',
    train s = (Ok tt, s')
    /\ trained
         (range (epochs (self s)
                 * (Z.of_nat (num_training_examples (self s)) `div` batch_size (self s))))
         s s'.
Proof.
  intros Hc Ho Hbs Hw Hd.
  set (bpe := (Z.of_nat (num_training_examples (self s)) `div` batch_size (self s))%Z).
  assert (0 <= bpe)%Z as Hbpe by (apply Z.div_pos; lia).
  assert (exists s', for_ (range (epochs (self s))) (train_epoch bpe) s = (Ok tt, s')
                     /\ trained (range (epochs (self s) * bpe)) s s') as (s' & Hrun & T).
  { destruct (Z.le_gt_cases 0 (epochs (self s))) as [Hep|Hep].
    - destruct (epoch_loop_trained (Z.to_nat (epochs (self s))) s bpe Hbpe Hc Ho Hw Hd)
        as (s' & Hrun & T).
      rewrite Z2Nat.id in Hrun, T by done. by exists s'.
    - exists s. rewrite range_nonpos by lia.
      split; [done|]. rewrite range_nonpos by nia.
      by apply trained_nil. }
  exists s'. split; [|exact T].
  unfold train, floordiv, bind, gets.
  destruct (Z.eqb_spec (batch_size (self s)) 0) as [|_]; [lia|]. exact Hrun.
Qed.

(** X9: a whole run.  When the batch fits, both optimizers exist,
    [weight_saving_interval] is not 0 and no write fails, [train] returns
    after [epochs * (num_training_examples // batch_size)] iterations,
    numbered 0, 1, 2, ... across the epochs in the order they are printed:
    [generator_losses] and [wass_estimates] have one more entry per
    iteration, [critic_losses] [num_critic_iters] more, the optimizers have
    applied as many updates, and the files written are the checkpoints of
    the iterations that are multiples of [weight_saving_interval], in
    order. *)
Theorem whole_run (s : state) :
  can_sample (self s) -> has_optimizers (self s) ->
  (0 < batch_size (self s))%Z ->
  weight_saving_interval (self s) <> 0%Z ->
  disk_never_fails (env s) ->
  let iterations :=
    range (epochs (self s)
           * (Z.of_nat (num_training_examples (self s)) `div` batch_size (self s))) in
  let n := length iterations in
  let k := Z.to_nat (num_critic_iters (self s)) in
  exists s',
    train s = (Ok tt, s')
    /\ length (critic_losses (self s')) = length (critic_losses (self s)) + n * k
    /\ length (generator_losses (self s')) = length (generator_losses (self s)) + n
    /\ length (wass_estimates (self s')) = length (wass_estimates (self s)) + n
    /\ steps_of (critic_optimizer (model (self s')))
       = (fun i => i + n * k) <$> steps_of (critic_optimizer (model (self s)))
    /\ steps_of (generator_optimizer (model (self s')))
       = (fun i => i + n) <$> steps_of (generator_optimizer (model (self s)))
    /\ np_pos (env s')
       = np_pos (env s) + n * ((k + 1) * Z.to_nat (batch_size (self s)))
    /\ saved_files (env s')
       = saved_files (env s)
         ++ map (checkpoint_name (self s))
              (filter (fun i => (i `mod` weight_saving_interval (self s) = 0)%Z)
                 iterations)
    /\ printed_iterations (stdout (env s'))
       = printed_iterations (stdout (env s)) ++ iterations.
Proof.
  intros Hc Ho Hbs Hw Hd iterations n k.
  destruct (train_trained s Hc Ho Hbs Hw Hd) as (s' & Hrun & T).
  exists s'. split; [exact Hrun|]. destruct T. by repeat split.
Qed.

(** X10: when the last iteration of such a run is a multiple of
    [weight_saving_interval] (always so for an interval of 1), the newest
    file on the disk is that iteration's checkpoint and it holds the
    variables of the generator as training left it. *)
Theorem latest_checkpoint_holds_the_trained_generator (s : state) :
  can_sample (self s) -> has_optimizers (self s) ->
  (0 < batch_size (self s))%Z ->
  weight_saving_interval (self s) <> 0%Z ->
  disk_never_fails (env s) ->
  let n :=
    (epochs (self s)
     * (Z.of_nat (num_training_examples (self s)) `div` batch_size (self s)))%Z in
  (0 < n)%Z ->
  ((n - 1) `mod` weight_saving_interval (self s) = 0)%Z ->
  exists s',
    train s = (Ok tt, s')
    /\ last (disk (env s'))
       = Some (checkpoint_name (self s) (n - 1),
               trainable_variables (generator (model (self s')))).
Proof.
  intros Hc Ho Hbs Hw Hd n Hn Hmod.
  destruct (train_trained s Hc Ho Hbs Hw Hd) as (s' & Hrun & T).
  exists s'. split; [exact Hrun|].
  apply (tr_latest _ _ _ T); [|exact Hmod].
  fold n. rewrite (range_split n (n - 1)) by lia.
  replace (n - (n - 1) - 1)%Z with 0%Z by lia.
  apply last_snoc.
Qed.

(** ** Construction *)

(** X11: the constructor takes six positional arguments and no other
    number: a call with fewer or more raises [TypeError] before anything is
    built.  So does [main], which passes two. *)
Theorem constructor_takes_six_arguments (cls : model_class) (args : list value)
  (summary : keras_model -> M world unit) (clip : scalar) (w : world) :
  length args <> 6 ->
  cWGAN_new cls args = Raise TypeError
  /\ main summary clip w = (Raise TypeError, w).
Proof.
  intros Hlen. split; [|reflexivity].
  destruct args as [|a1 [|a2 [|a3 [|a4 [|a5 [|a6 [|a7 args]]]]]]]; try reflexivity.
  by destruct Hlen.
Qed.

Lemma dict_get_Ok (params_dict : gmap string value) (k : string) (v : value) :
  dict_get params_dict k = Ok v -> params_dict !! k = Some v.
Proof. unfold dict_get. destruct (params_dict !! k); [by intros [= ->] | done]. Qed.

Lemma dict_get_missing (params_dict : gmap string value) (k : string) :
  params_dict !! k = None -> dict_get params_dict k = Raise KeyError.
Proof. unfold dict_get. by intros ->. Qed.

Lemma dict_get_cases (params_dict : gmap string value) (k : string) :
  (exists v, dict_get params_dict k = Ok v) \/ dict_get params_dict k = Raise KeyError.
Proof. unfold dict_get. destruct (params_dict !! k); eauto. Qed.

(** X12: a dictionary that lacks one of the eleven keys gives no trainer:
    [Trainer.__init__] raises.  When the key is one of the eight read
    before the model is built and the save directory could be made, the
    error is [KeyError] and nothing has happened since the directory was
    made. *)
Theorem Trainer_init_needs_every_key
  (make_save_directory : string -> M world string)
  (load_jet_data : string -> M world (batch * batch))
  (params_dict : gmap string value) (w : world) (k : string) :
  k ∈ ["num_critic_iters"; "batch_size"; "gen_lr"; "critic_lr"; "clip_value";
       "optimizer"; "noise_dims"; "gp_weight"; "data_path"; "epochs";
       "weight_saving_interval"] ->
  params_dict !! k = None ->
  exists e w',
    Trainer_init make_save_directory load_jet_data params_dict w = (Raise e, w')
    /\ (k ∈ ["num_critic_iters"; "batch_size"; "gen_lr"; "critic_lr"; "clip_value";
             "optimizer"; "noise_dims"; "gp_weight"] ->
        forall dir w1, make_save_directory "cWGAN" w = (Ok dir, w1) ->
                       e = KeyError /\ w' = w1).
Proof.
  intros Hk Hnone. apply dict_get_missing in Hnone.
  unfold Trainer_init, bind, lift.
  destruct (make_save_directory "cWGAN" w) as [[dir|e] w1].
  2:{ eexists _, _. split; [reflexivity|]. intros _ dir' w1' [=]. }
  repeat (apply elem_of_cons in Hk as [->|Hk];
    [ repeat match goal with
             | |- context [dict_get params_dict ?key] =>
                 first [ rewrite Hnone
                       | destruct (dict_get_cases params_dict key) as [[? ->] | ->] ];
                 cbv beta iota
             | |- context [cWGAN_new ?c ?a] => destruct (cWGAN_new c a); cbv beta iota
             | |- context [as_str ?v] => destruct (as_str v); cbv beta iota
             | |- context [load_jet_data ?p ?w0] =>
                 destruct (load_jet_data p w0) as [[?|?] ?]; cbv beta iota
             end;
      (eexists _, _; split; [reflexivity|]);
      first [ by intros _ dir' w1' [= <- <-]
            | intros Hin; exfalso;
              repeat (apply elem_of_cons in Hin as [Hin|Hin]; [discriminate Hin|]);
              by apply elem_of_nil in Hin ]
    | ]).
  by apply elem_of_nil in Hk.
Qed.

(** X13: for a dictionary whose values have the documented types (and a
    [noise_dims] that is not negative), every trainer that
    [Trainer.__init__] returns holds the dictionary's values and the
    directory and the data its collaborators gave, starts with empty
    histories and counts the rows of its conditions array.  Its model is a
    [cWGAN] with freshly built networks, and has optimizers, none of them
    having stepped, exactly for the names ["RMSprop"] and ["Adam"]. *)
Theorem constructed_trainer
  (make_save_directory : string -> M world string)
  (load_jet_data : string -> M world (batch * batch))
  (params_dict : gmap string value) (w w' : world) (t : Trainer)
  (nci bs ep wsi nd : Z) (cv gen_lr critic_lr gp : scalar) (name path : string) :
  params_dict !! "num_critic_iters" = Some (VInt nci) ->
  params_dict !! "batch_size" = Some (VInt bs) ->
  params_dict !! "gen_lr" = Some (VFloat gen_lr) ->
  params_dict !! "critic_lr" = Some (VFloat critic_lr) ->
  params_dict !! "clip_value" = Some (VFloat cv) ->
  params_dict !! "optimizer" = Some (VStr name) ->
  params_dict !! "noise_dims" = Some (VInt nd) ->
  params_dict !! "gp_weight" = Some (VFloat gp) ->
  params_dict !! "data_path" = Some (VStr path) ->
  params_dict !! "epochs" = Some (VInt ep) ->
  params_dict !! "weight_saving_interval" = Some (VInt wsi) ->
  (0 <= nd)%Z ->
  Trainer_init make_save_directory load_jet_data params_dict w = (Ok t, w') ->
  let chosen :=
    if String.eqb name "RMSprop" then Some RMSprop
    else if String.eqb name "Adam" then Some Adam
    else None in
  (exists w1, make_save_directory "cWGAN" w = (Ok (save_dir t), w1)
              /\ load_jet_data path w1 = (Ok (data t), w'))
  /\ trainer_cls t = cls_Trainer
  /\ num_critic_iters t = nci /\ batch_size t = bs
  /\ epochs t = ep /\ weight_saving_interval t = wsi
  /\ critic_losses t = [] /\ generator_losses t = [] /\ wass_estimates t = []
  /\ num_training_examples t = length (fst (data t))
  /\ model_cls (model t) = cls_cWGAN
  /\ clip_value (model t) = cv /\ gp_weight (model t) = gp
  /\ Z.of_nat (noise_dims (model t)) = nd
  /\ generator (model t) = build_generator cls_cWGAN (noise_dims (model t))
  /\ critic (model t) = build_critic cls_cWGAN
  /\ opt_class <$> critic_optimizer (model t) = chosen
  /\ opt_class <$> generator_optimizer (model t) = chosen
  /\ steps_of (critic_optimizer (model t)) = (fun _ => 0) <$> chosen
  /\ steps_of (generator_optimizer (model t)) = (fun _ => 0) <$> chosen.
Proof.
  intros H1 H2 H3 H4 H5 H6 H7 H8 H9 H10 H11 Hnd H chosen.
  unfold Trainer_init, bind, lift, dict_get in H.
  destruct (make_save_directory "cWGAN" w) as [[dir|?] w1] eqn:Hdir; [|done].
  rewrite H1, H2, H3, H4, H5, H6, H7, H8, H9, H10, H11 in H.
  cbv beta iota delta [cWGAN_new cWGAN_init as_str new_trainer as_int] in H.
  subst chosen.
  destruct (String.eqb name "RMSprop"); [|destruct (String.eqb name "Adam")];
    cbv beta iota zeta in H;
    (destruct (load_jet_data path w1) as [[d|?] w2] eqn:Hload;
     cbv beta iota in H; [|done]);
    injection H as <- <-; cbn;
    (split; [by exists w1|]); rewrite Z2Nat.id by done; by repeat split.
Qed.

(** ** Shapes *)

(** X14: for a positive noise size the four networks are well formed and
    their outputs have the shapes the training steps rely on: a dense
    generator yields 4-vectors, as the targets are, whatever the noise
    size; the MNIST generator yields 28x28x1 images; each critic reduces
    its input to a single score per example (the MNIST critic from a
    28x28x11 input to 1x1x1). *)
Theorem networks_have_the_expected_shapes (nd : nat) :
  0 < nd ->
  output_shape (network (arch (build_generator cls_cWGAN nd))) = Some [4%N]
  /\ output_shape (network (arch (build_generator cls_cWGAN_mnist nd)))
     = Some [28; 28; 1]%N
  /\ output_shape (network (arch (build_critic cls_cWGAN))) = Some [1%N]
  /\ output_shape (network (arch (build_critic cls_cWGAN_mnist)))
     = Some [1; 1; 1]%N.
Proof.
  intros _. repeat split; vm_compute; reflexivity.
Qed.


(** ** What a run never undoes *)

Lemma extends_refl (s : state) : extends s s.
Proof. by split. Qed.

Lemma extends_trans (s1 s2 s3 : state) :
  extends s1 s2 -> extends s2 s3 -> extends s1 s3.
Proof. intros [] []. split; try (by etrans). Qed.

Lemma extending_ret {A} (a : A) : extending (ret a).
Proof. intros s. apply extends_refl. Qed.

Lemma extending_raise {A} (e : exn) : extending (raise (A:=A) e).
Proof. intros s. apply extends_refl. Qed.

Lemma extending_gets {A} (f : state -> A) : extending (gets f).
Proof. intros s. apply extends_refl. Qed.

Lemma extending_bind {A C} (m : M state A) (k : A -> M state C) :
  extending m -> (forall a, extending (k a)) -> extending (bind m k).
Proof.
  intros Hm Hk s. unfold bind. specialize (Hm s).
  destruct (m s) as [[a|e] s1]; [|exact Hm].
  eapply extends_trans; [exact Hm | apply Hk].
Qed.

Lemma extending_for {A} (xs : list A) (body : A -> M state unit) :
  (forall x, extending (body x)) -> extending (for_ xs body).
Proof.
  intros Hbody. induction xs as [|x xs IH]; [apply extending_ret|].
  cbn [for_]. apply extending_bind; [apply Hbody | by intros _].
Qed.

Lemma extending_print (l : out_line) : extending (on_env (modify (print l))).
Proof. intros s. split; try done. cbn. by apply prefix_app_r. Qed.

Lemma extending_sample : extending sample_batch_of_data.
Proof.
  intros s. pose proof (sample_batch_self s) as Hs.
  destruct (sample_batch_outside s) as (Hd & _ & Ho & _).
  split; rewrite ?Hs, ?Hd, ?Ho; done.
Qed.

Lemma train_critic_Ok (x y : batch) (net : cWGAN) (w : world) (l : scalar)
  (m' : mstate) :
  train_critic x y (net, w) = (Ok l, m') ->
  exists o' c', fst m' = set_critic o' c' net /\ arch c' = arch (critic net)
                /\ disk (snd m') = disk w /\ stdout (snd m') = stdout w.
Proof.
  destruct (critic_optimizer net) as [o|] eqn:Ho.
  - destruct (train_critic_ok x y net w o Ho) as (l' & o' & c' & p & -> & _ & Harch).
    intros [= <- <-]. by exists o', c'.
  - intros H. pose proof (critic_step_without_optimizer x y net w Ho) as H'.
    by rewrite H in H'.
Qed.

Lemma train_generator_Ok (x : batch) (net : cWGAN) (w : world) (l : scalar)
  (m' : mstate) :
  train_generator x (net, w) = (Ok l, m') ->
  exists o' g', fst m' = set_generator o' g' net /\ arch g' = arch (generator net)
                /\ snd m' = after_noise net w x.
Proof.
  destruct (generator_optimizer net) as [o|] eqn:Ho.
  - destruct (train_generator_ok x net w o Ho) as (l' & o' & g' & -> & _ & Harch).
    intros [= <- <-]. by exists o', g'.
  - intros H. pose proof (generator_step_without_optimizer x net w Ho) as H'.
    by rewrite H in H'.
Qed.

Lemma extending_critic_step : extending take_critic_step.
Proof.
  intros s. destruct (take_critic_step s) as [[[]|e] s'] eqn:H; cbn [snd].
  2:{ apply take_critic_step_raise in H as (Hself & Hd & _ & Ho & _).
      split; rewrite ?Hself, ?Hd, ?Ho; done. }
  unfold take_critic_step, bind in H.
  pose proof (extending_sample s) as Hs.
  destruct (sample_batch_of_data s) as [[xy|e] s1]; [|done]. cbn [snd] in Hs.
  eapply extends_trans; [exact Hs|].
  rewrite on_model_eq in H.
  destruct (train_critic (fst xy) (snd xy) (model (self s1), env s1))
    as [[l|e] m'] eqn:Hstep; [|done].
  apply train_critic_Ok in Hstep as (o' & c' & Hnet & Harch & Hd & Ho).
  cbn [fst snd] in H. unfold on_self, modify in H.
  injection H as <-. rewrite Hnet.
  split; cbn; rewrite ?Hd, ?Ho; try done.
  - unfold settings. cbn. by rewrite Harch.
  - by apply prefix_app_r.
Qed.

Lemma extending_generator_step : extending take_generator_step.
Proof.
  intros s. destruct (take_generator_step s) as [[[]|e] s'] eqn:H; cbn [snd].
  2:{ apply take_generator_step_raise in H as (Hself & Hd & _ & Ho & _).
      split; rewrite ?Hself, ?Hd, ?Ho; done. }
  unfold take_generator_step, bind, gets in H.
  pose proof (extending_sample s) as Hs.
  destruct (trainer_cls (self s));
    unfold Trainer_take_generator_step, MNISTTrainer_take_generator_step, bind in H;
    (destruct (sample_batch_of_data s) as [[xy|e] s1]; [|done]); cbn [snd] in Hs;
    (eapply extends_trans; [exact Hs|]);
    rewrite on_model_eq in H;
    (destruct (train_generator (fst xy) (model (self s1), env s1))
       as [[l|e] m'] eqn:Hstep; [|done]);
    apply train_generator_Ok in Hstep as (o' & g' & Hnet & Harch & Hw);
    cbn [fst snd] in H; rewrite Hnet, Hw in H; cbn in H;
    injection H as <-;
    (split; cbn; try done;
     [ unfold settings; cbn; by rewrite Harch
     | by apply prefix_app_r
     | by apply prefix_app_r ]).
Qed.

Lemma extending_save_weights (iteration : Z) : extending (save_weights iteration).
Proof.
  intros s. rewrite save_weights_eq. cbv zeta.
  destruct (disk_faults (env s)) as [|[e|] rest]; split; cbn; try done;
    by apply prefix_app_r.
Qed.

Lemma extending_train_iteration (bpe epoch bn : Z) :
  extending (train_iteration bpe epoch bn).
Proof.
  unfold train_iteration, take_steps.
  repeat first
    [ apply extending_critic_step
    | apply extending_generator_step
    | apply extending_print
    | apply extending_gets
    | apply extending_for; intros ?
    | apply extending_bind; [|intros ?] ].
  all: unfold pymod, last_item;
    repeat match goal with
           | |- context [if ?c then _ else _] => destruct c
           | |- context [match last ?l with _ => _ end] => destruct (last l)
           end;
    first [apply extending_raise | apply extending_ret | apply extending_save_weights].
Qed.

(** X15: whatever [train] does, and whether it returns or raises, it keeps
    the settings and the data set as they were, and what was recorded,
    written or printed before stays in place: each history, the list of
    files written and the output only grow at their end. *)
Theorem train_only_extends (s : state) :
  settings (self (snd (train s))) = settings (self s)
  /\ critic_losses (self s) `prefix_of` critic_losses (self (snd (train s)))
  /\ generator_losses (self s) `prefix_of` generator_losses (self (snd (train s)))
  /\ wass_estimates (self s) `prefix_of` wass_estimates (self (snd (train s)))
  /\ disk (env s) `prefix_of` disk (env (snd (train s)))
  /\ stdout (env s) `prefix_of` stdout (env (snd (train s))).
Proof.
  assert (extending train) as H.
  { unfold train, train_epoch.
    repeat first
      [ apply extending_train_iteration
      | apply extending_print
      | apply extending_gets
      | apply extending_for; intros ?
      | apply extending_bind; [|intros ?] ].
    unfold floordiv.
    match goal with |- context [if ?c then _ else _] => destruct c end;
      [apply extending_raise | apply extending_ret]. }
  by destruct (H s).
Qed.

(** ** What an iteration prints *)

Lemma take_critic_step_keeps_estimates (s : state) :
  wass_estimates (self (snd (take_critic_step s))) = wass_estimates (self s).
Proof.
  destruct (take_critic_step s) as [[[]|e] s'] eqn:H; cbn [snd].
  2:{ apply take_critic_step_raise in H as (-> & _). done. }
  unfold take_critic_step, bind in H.
  pose proof (sample_batch_self s) as Hs.
  destruct (sample_batch_of_data s) as [[xy|e] s1]; [|done]. cbn [snd] in Hs.
  rewrite on_model_eq in H.
  destruct (train_critic (fst xy) (snd xy) (model (self s1), env s1))
    as [[l|e] m'] eqn:Hstep; [|done].
  cbn [fst snd] in H. unfold on_self, modify in H. injection H as <-.
  cbn. by rewrite Hs.
Qed.

Lemma critic_loop_keeps_estimates {A} (xs : list A) (s : state) :
  wass_estimates (self (snd (for_ xs (fun _ => take_critic_step) s)))
  = wass_estimates (self s).
Proof.
  revert s. induction xs as [|x xs IH]; intros s; [done|].
  cbn [for_]. unfold bind.
  pose proof (take_critic_step_keeps_estimates s) as H.
  destruct (take_critic_step s) as [[[]|e] s1]; cbn [snd] in *; [|done].
  by rewrite IH.
Qed.

Lemma take_generator_step_Ok (s s' : state) :
  take_generator_step s = (Ok tt, s') ->
  exists a, wass_estimates (self s') = wass_estimates (self s) ++ [a].
Proof.
  intros H.
  destruct (sample_batch_of_data s) as [[[x y]|e] s1] eqn:Hsample.
  2:{ unfold take_generator_step, bind, gets in H.
      destruct (trainer_cls (self s));
        unfold Trainer_take_generator_step, MNISTTrainer_take_generator_step, bind in H;
        by rewrite Hsample in H. }
  destruct (generator_optimizer (model (self s))) as [o|] eqn:Ho.
  - destruct (take_generator_step_eq s s1 x y o Hsample Ho) as (l & o' & g' & Heq & _).
    cbv zeta in Heq. rewrite Heq in H. injection H as <-. by eexists.
  - assert (can_fail : exists s2, take_generator_step s = (Raise AttributeError, s2)).
    { pose proof (sample_batch_self s) as Hs. rewrite Hsample in Hs. cbn in Hs.
      unfold take_generator_step, bind, gets.
      destruct (trainer_cls (self s));
        unfold Trainer_take_generator_step, MNISTTrainer_take_generator_step, bind;
        rewrite Hsample; cbn [fst snd]; rewrite on_model_eq, Hs;
        rewrite (generator_step_without_optimizer x _ _ Ho); by eexists. }
    destruct can_fail as [s2 H2]. by rewrite H2 in H.
Qed.

(** X16: an iteration that completes has recorded exactly one new
    Wasserstein estimate, and the last line it printed carries the
    iteration's number and that very estimate. *)
Theorem iteration_prints_its_estimate (s s' : state) (bpe epoch bn : Z) :
  train_iteration bpe epoch bn s = (Ok tt, s') ->
  exists a,
    wass_estimates (self s') = wass_estimates (self s) ++ [a]
    /\ last (stdout (env s')) = Some (IterationLine (epoch * bpe + bn) a).
Proof.
  intros H. unfold train_iteration, bind at 1 in H.
  destruct (take_steps s) as [[[]|e] s1] eqn:Hsteps; [|done].
  assert (exists a, wass_estimates (self s1) = wass_estimates (self s) ++ [a])
    as [a Ha].
  { unfold take_steps, bind, gets in Hsteps.
    pose proof (critic_loop_keeps_estimates (range (num_critic_iters (self s))) s) as Hk.
    destruct (for_ (range (num_critic_iters (self s))) (fun _ => take_critic_step) s)
      as [[[]|e] s0]; [|done]. cbn [snd] in Hk.
    apply take_generator_step_Ok in Hsteps as [a Ha]. exists a. by rewrite Ha, Hk. }
  exists a. unfold bind, gets, pymod in H.
  destruct (weight_saving_interval (self s1) =? 0)%Z; [done|].
  unfold ret in H.
  destruct ((epoch * bpe + bn) `mod` weight_saving_interval (self s1) =? 0)%Z.
  - rewrite save_weights_eq in H. cbv zeta in H.
    destruct (disk_faults (env s1)) as [|[e|] rest]; [|done|];
      cbn [self env] in H; unfold last_item in H; rewrite Ha, last_snoc in H;
      unfold ret, on_env, modify in H; injection H as <-; cbn;
      (split; [done | by rewrite last_snoc]).
  - cbn [self env] in H. unfold last_item in H. rewrite Ha, last_snoc in H.
    unfold ret, on_env, modify in H. injection H as <-. cbn.
    split; [done | by rewrite last_snoc].
Qed.

End MoreProperties.

(** * The further properties on the small backend *)

Lemma first_batch_is_paired_and_distinct :
  exists (indices : list nat) x y s',
    sample_batch_of_data (a_state 4 []) = (Ok (x, y), s')
    /\ length indices = 4 /\ NoDup indices.
Proof.
  destruct (sampled_batch_is_paired_and_distinct (B:=backend) (a_state 4 []))
    as (ix & x & y & s' & Hrun & Hlen & Hnd & _).
  { unfold can_sample. simpl. lia. }
  exists ix, x, y, s'. by repeat split.
Defined.

Lemma negative_batch_size_raises :
  sample_batch_of_data (a_state (-1) []) = (Raise ValueError, a_state (-1) []).
Proof.
  apply (sampling_succeeds_iff_batch_fits (B:=backend) (a_state (-1) []));
    simpl; lia.
Defined.

Lemma batch_of_eight_from_eight :
  exists x y s',
    sample_batch_of_data (a_state 8 []) = (Ok (x, y), s')
    /\ x ≡ₚ examples_x /\ y ≡ₚ examples_y.
Proof.
  apply (full_batch_is_a_permutation (B:=backend) (a_state 8 [])); reflexivity.
Defined.

Lemma critic_step_without_optimizer_changes_nothing :
  self (snd (take_critic_step a_state_without_optimizers))
  = self a_state_without_optimizers.
Proof.
  assert (take_critic_step a_state_without_optimizers
          = (Raise AttributeError, snd (take_critic_step a_state_without_optimizers)))
    as H.
  { rewrite (surjective_pairing (take_critic_step a_state_without_optimizers)) at 1.
    f_equal. }
  by destruct (failed_critic_step_changes_no_object (B:=backend) _ _ _ H).
Defined.

Lemma train_on_a_model_without_optimizers :
  exists s', train a_state_without_optimizers = (Raise AttributeError, s')
             /\ self s' = self a_state_without_optimizers.
Proof.
  destruct (train_without_optimizers_raises (B:=backend) a_state_without_optimizers)
    as (s' & Hrun & Hself & _); try reflexivity.
  { unfold can_sample. simpl. lia. }
  by exists s'.
Defined.

Lemma train_on_batches_of_zero_or_no_epoch :
  train (a_state 0 []) = (Raise ZeroDivisionError, a_state 0 [])
  /\ train (a_state_with 0 1) = (Ok tt, a_state_with 0 1).
Proof.
  split.
  - by apply (train_without_work (B:=backend) (a_state 0 [])).
  - by apply (train_without_work (B:=backend) (a_state_with 0 1)).
Defined.

Lemma train_with_interval_zero_in_the_scenario :
  exists s', train (a_state_with 1 0) = (Raise ZeroDivisionError, s')
             /\ length (generator_losses (self s')) = 1.
Proof.
  destruct (train_with_interval_zero (B:=backend) (a_state_with 1 0))
    as (s' & Hrun & Hadv); try reflexivity.
  { unfold can_sample. simpl. lia. }
  { split; eexists; reflexivity. }
  exists s'. split; [exact Hrun|]. by destruct Hadv as [_ _ -> _].
Defined.

Lemma checkpoint_three_of_the_scenario :
  checkpoint_name (self (a_state 4 [])) 3 <> checkpoint_name (self (a_state 4 [])) 4.
Proof.
  assert (save_weights 3 (a_state 4 [])
          = (Ok tt, snd (save_weights 3 (a_state 4 [])))) as H.
  { rewrite (surjective_pairing (save_weights 3 (a_state 4 []))) at 1. f_equal. }
  destruct (checkpoints_are_keyed_by_iteration (B:=backend) _ _ 3 4 H) as (_ & _ & Hne).
  apply Hne. lia.
Defined.

Lemma whole_run_of_the_scenario :
  exists s', train (a_state 4 []) = (Ok tt, s')
             /\ length (critic_losses (self s')) = 2
             /\ length (generator_losses (self s')) = 2
             /\ saved_files (env s')
                = ["run/training_checkpoints/gen_0"; "run/training_checkpoints/gen_1"]
             /\ printed_iterations (stdout (env s')) = [0; 1]%Z.
Proof.
  destruct (whole_run (B:=backend) (a_state 4 []))
    as (s' & Hrun & Hcl & Hgl & _ & _ & _ & _ & Hfiles & Hprinted).
  { unfold can_sample. simpl. lia. }
  { split; eexists; reflexivity. }
  { reflexivity. }
  { discriminate. }
  { constructor. }
  exists s'. split; [exact Hrun|].
  split; [exact Hcl|]. split; [exact Hgl|].
  split; [rewrite Hfiles; vm_compute; reflexivity | rewrite Hprinted; reflexivity].
Defined.

Lemma two_arguments_are_refused :
  cWGAN_new cls_cWGAN [VFloat 1%Z; VInt 10] = Raise TypeError
  /\ main (fun _ => ret tt) 1%Z (a_world []) = (Raise TypeError, a_world []).
Proof.
  apply (constructor_takes_six_arguments (B:=backend)). simpl. lia.
Defined.

Lemma latest_checkpoint_of_the_scenario :
  exists s', train (a_state 4 []) = (Ok tt, s')
             /\ last (disk (env s'))
                = Some ("run/training_checkpoints/gen_1",
                        trainable_variables (generator (model (self s')))).
Proof.
  destruct (latest_checkpoint_holds_the_trained_generator (B:=backend) (a_state 4 []))
    as (s' & Hrun & Hlast).
  { unfold can_sample. simpl. lia. }
  { split; eexists; reflexivity. }
  { reflexivity. }
  { discriminate. }
  { constructor. }
  { reflexivity. }
  { reflexivity. }
  exists s'. split; [exact Hrun|]. rewrite Hlast. reflexivity.
Defined.

Lemma first_iteration_prints_its_estimate :
  exists a,
    wass_estimates (self (snd (train_iteration 2 0 0 (a_state 4 [])))) = [a]
    /\ last (stdout (env (snd (train_iteration 2 0 0 (a_state 4 [])))))
       = Some (IterationLine 0 a).
Proof.
  assert (train_iteration 2 0 0 (a_state 4 [])
          = (Ok tt, snd (train_iteration 2 0 0 (a_state 4 [])))) as H.
  { rewrite (surjective_pairing (train_iteration 2 0 0 (a_state 4 []))) at 1.
    f_equal. }
  exact (iteration_prints_its_estimate (B:=backend) _ _ 2 0 0 H).
Defined.

Lemma empty_dict_gives_KeyError :
  exists e w',
    Trainer_init make_run_directory load_examples ∅ (a_world []) = (Raise e, w')
    /\ e = KeyError.
Proof.
  destruct (Trainer_init_needs_every_key (B:=backend) make_run_directory
              load_examples ∅ (a_world []) "batch_size")
    as (e & w' & Hrun & Hkey).
  { repeat first [apply list_elem_of_here | apply list_elem_of_further]. }
  { reflexivity. }
  exists e, w'. split; [exact Hrun|].
  eapply Hkey; [|reflexivity].
  repeat first [apply list_elem_of_here | apply list_elem_of_further].
Defined.

Lemma trainer_of_some_params :
  exists t w',
    Trainer_init make_run_directory load_examples some_params (a_world []) = (Ok t, w')
    /\ batch_size t = 4%Z /\ critic_losses t = [] /\ num_training_examples t = 8
    /\ opt_class <$> critic_optimizer (model t) = Some Adam
    /\ steps_of (generator_optimizer (model t)) = Some 0.
Proof.
  set (r := Trainer_init make_run_directory load_examples some_params (a_world [])).
  assert (exists t, fst r = Ok t) as [t Ht] by (eexists; vm_compute; reflexivity).
  assert (r = (Ok t, snd r)) as H by (rewrite (surjective_pairing r) at 1; by f_equal).
  destruct (constructed_trainer (B:=backend) make_run_directory load_examples
              some_params (a_world []) (snd r) t 1 4 1 1 10 1%Z 1%Z 3%Z 10%Z
              "Adam" "jets.txt")
    as (_ & _ & _ & Hbs & _ & _ & Hcl & _ & _ & Hn & _ & _ & _ & _ & _ & _
        & Hco & _ & _ & Hgs);
    try reflexivity; [lia | exact H |].
  exists t, (snd r). split; [exact H|]. split; [exact Hbs|]. split; [exact Hcl|].
  split; [|by split].
  rewrite Hn. vm_compute in Ht. injection Ht as <-. reflexivity.
Defined.

Lemma shapes_for_ten_noise_dimensions :
  output_shape (network (arch (build_generator cls_cWGAN 10))) = Some [4%N]
  /\ output_shape (network (arch (build_generator cls_cWGAN_mnist 10)))
     = Some [28; 28; 1]%N.
Proof.
  destruct (networks_have_the_expected_shapes (B:=backend) 10) as (H1 & H2 & _);
    [lia|]. by split.
Defined.
